(** * project_check.py: lint runner, link scanner and dependency checker

    A shallow embedding of [src/project_check.py] and the properties of
    its three checks.

    - Python [str] values are lists of Unicode code points.
    - The script talks to the outside world (console, file system,
      network, module loader, subprocesses).  Each such call is a node
      of a small program tree [prog]; a [World] answers the calls and
      threads its own state, and [run] records every call with its
      answer in a trace.
    - Exceptions are values; [try_except] is the [try]/[except] block.
      Every exception of the model derives from [Exception]: interrupts
      such as [KeyboardInterrupt] are left out.
    - [open_] gives the lines a file yields, or the exception of
      [open].  The scanner reads with [errors="ignore"], so its reading
      cannot fail on undecodable bytes.  The manifest is read under
      strict decoding, line after line: its lines are those yielded
      before the reading ends, and [read_end] tells how it ends, normally
      or with the exception of the read.  Closing a file at the end of
      [with] is not recorded.
    - A [print] of ASCII text, or of text made of what the process read,
      is taken to succeed.  The completion banner holds U+2705, written
      by the script itself: [print_encoded] asks the console whether it
      can encode it.
    - [os.walk] is taken as the list of the entries it yields; paths are
      joined as on POSIX. *)

From Stdlib Require Import List NArith ZArith Bool Lia.
From Stdlib Require Import Strings.String Strings.Ascii Numbers.DecimalString.
Import ListNotations.

(** ** Python strings *)

Module PyStr.

(** A Python string: its code points, in order. *)
Definition str := list N.

(** A literal with ASCII characters only. *)
Definition py (s : string) : str :=
  List.map N_of_ascii (list_ascii_of_string s).

(** The line feed, written [\n] in the source. *)
Definition nl : str := [10%N].

Fixpoint str_eqb (a b : str) : bool :=
  match a, b with
  | [], [] => true
  | x :: a', y :: b' => N.eqb x y && str_eqb a' b'
  | _, _ => false
  end.

(** [s.startswith(pre)] *)
Fixpoint startswith (pre s : str) : bool :=
  match pre with
  | [] => true
  | p :: pre' =>
      match s with
      | [] => false
      | c :: s' => N.eqb p c && startswith pre' s'
      end
  end.

(** [s.endswith(suf)] *)
Definition endswith (suf s : str) : bool :=
  startswith (rev suf) (rev s).

(** [s.endswith((suf1, suf2, ...))]: any of the suffixes. *)
Definition endswith_any (sufs : list str) (s : str) : bool :=
  existsb (fun suf => endswith suf s) sufs.

(** [sub in s] *)
Fixpoint contains (sub s : str) : bool :=
  startswith sub s ||
  match s with
  | [] => false
  | _ :: s' => contains sub s'
  end.

(** [c.isspace()] for one code point: bidirectional type WS, B or S, or
    category Zs. *)
Definition isspace (c : N) : bool :=
  ((9 <=? c) && (c <=? 13) || (28 <=? c) && (c <=? 32) ||
   (c =? 133) || (c =? 160) || (c =? 5760) ||
   (8192 <=? c) && (c <=? 8202) ||
   (c =? 8232) || (c =? 8233) || (c =? 8239) || (c =? 8287) ||
   (c =? 12288))%N.

(** [s.split()]: the maximal runs of non-whitespace characters.  [cur]
    holds the run being read, last character first. *)
Fixpoint split_ws (cur s : str) : list str :=
  match s with
  | [] => match cur with [] => [] | _ => [rev cur] end
  | c :: s' =>
      if isspace c
      then match cur with
           | [] => split_ws [] s'
           | _ => rev cur :: split_ws [] s'
           end
      else split_ws (c :: cur) s'
  end.

Definition split (s : str) : list str := split_ws [] s.

Fixpoint lstrip (s : str) : str :=
  match s with
  | [] => []
  | c :: s' => if isspace c then lstrip s' else s
  end.

(** [s.strip()] *)
Definition strip (s : str) : str := rev (lstrip (rev (lstrip s))).

(** [s.split(sep)] for a non-empty [sep]: cut at the occurrences of
    [sep], left to right, without overlap.  [skip] counts the characters
    of a matched separator still to pass; [cur] is the piece being read,
    last character first. *)
Fixpoint split_go (sep : str) (skip : nat) (cur s : str) : list str :=
  match s with
  | [] => [rev cur]
  | c :: s' =>
      match skip with
      | S k => split_go sep k cur s'
      | O =>
          if startswith sep s
          then rev cur :: split_go sep (List.length sep - 1) [] s'
          else split_go sep 0 (c :: cur) s'
      end
  end.

Definition split_sep (sep s : str) : list str := split_go sep 0 [] s.

(** [str(n)] for an [int]. *)
Definition str_of_int (z : Z) : str :=
  py (NilZero.string_of_int (Z.to_int z)).

(** [os.path.join(a, b)] (POSIX). *)
Definition path_join (a b : str) : str :=
  if startswith (py "/") b then b
  else if match a with [] => true | _ => endswith (py "/") a end
       then a ++ b
       else a ++ py "/" ++ b.

End PyStr.
Import PyStr.

(** ** Exceptions *)

(** The exception classes the script can meet.  Every one of them
    derives from [Exception]; [ModuleNotFoundError] derives from
    [ImportError]. *)
Inductive exc_class : Type :=
| ImportError
| ModuleNotFoundError
| FileNotFoundError
| PermissionError
| CalledProcessError
| RequestsTimeout
| RequestsConnectionError
| RequestsMissingSchema
| TypeError
| RuntimeError
| UnicodeDecodeError
| UnicodeEncodeError.

(** An exception object: its class and [str(e)]. *)
Record exc : Type := Exc { exc_cls : exc_class; exc_msg : str }.

(** [isinstance(e, ImportError)], the test of [except ImportError]. *)
Definition is_ImportError (e : exc) : bool :=
  match exc_cls e with
  | ImportError | ModuleNotFoundError => true
  | _ => false
  end.

(** [isinstance(e, Exception)], the test of [except Exception]. *)
Definition is_Exception (e : exc) : bool := true.

(** ** Programs *)

(** One entry of [os.walk]: [(root, dirs, files)]. *)
Definition walk_entry : Type := (str * list str * list str)%type.

(** A program is a tree of calls to the outside world.  A call that can
    fail hands its continuation either the exception or the value. *)
Inductive prog (A : Type) : Type :=
| Ret (a : A)
| Raise (e : exc)
| Print (text : str) (k : prog A)
| SubprocessRun (args : list str) (k : exc + Z -> prog A)
| OsWalk (top : str) (k : list walk_entry -> prog A)
| Open (path mode : str) (errors : option str) (k : exc + list str -> prog A)
| RequestsHead (url : str) (timeout : Z) (k : exc + Z -> prog A)
| ImportModule (name : str) (k : exc + unit -> prog A)
| ReadEnd (path : str) (k : option exc -> prog A)
| PrintEncoded (text : str) (k : option exc -> prog A).

Arguments Ret {A} a.
Arguments Raise {A} e.
Arguments Print {A} text k.
Arguments SubprocessRun {A} args k.
Arguments OsWalk {A} top k.
Arguments Open {A} path mode errors k.
Arguments RequestsHead {A} url timeout k.
Arguments ImportModule {A} name k.
Arguments ReadEnd {A} path k.
Arguments PrintEncoded {A} text k.

Fixpoint bind {A B : Type} (p : prog A) (f : A -> prog B) : prog B :=
  match p with
  | Ret a => f a
  | Raise e => Raise e
  | Print t k => Print t (bind k f)
  | SubprocessRun a k => SubprocessRun a (fun r => bind (k r) f)
  | OsWalk t k => OsWalk t (fun r => bind (k r) f)
  | Open p m e k => Open p m e (fun r => bind (k r) f)
  | RequestsHead u t k => RequestsHead u t (fun r => bind (k r) f)
  | ImportModule n k => ImportModule n (fun r => bind (k r) f)
  | ReadEnd p k => ReadEnd p (fun r => bind (k r) f)
  | PrintEncoded t k => PrintEncoded t (fun r => bind (k r) f)
  end.

Notation "x <- c1 ;; c2" := (bind c1 (fun x => c2))
  (at level 61, c1 at next level, right associativity).
Notation "c1 ;; c2" := (bind c1 (fun _ => c2))
  (at level 61, right associativity).

(** [try: body  except C as e: handler(e)], where [catches e] tells
    whether [e] is an instance of [C]. *)
Fixpoint try_except {A : Type} (body : prog A) (catches : exc -> bool)
    (handler : exc -> prog A) : prog A :=
  match body with
  | Ret a => Ret a
  | Raise e => if catches e then handler e else Raise e
  | Print t k => Print t (try_except k catches handler)
  | SubprocessRun a k =>
      SubprocessRun a (fun r => try_except (k r) catches handler)
  | OsWalk t k => OsWalk t (fun r => try_except (k r) catches handler)
  | Open p m e k => Open p m e (fun r => try_except (k r) catches handler)
  | RequestsHead u t k =>
      RequestsHead u t (fun r => try_except (k r) catches handler)
  | ImportModule n k =>
      ImportModule n (fun r => try_except (k r) catches handler)
  | ReadEnd p k => ReadEnd p (fun r => try_except (k r) catches handler)
  | PrintEncoded t k =>
      PrintEncoded t (fun r => try_except (k r) catches handler)
  end.

(** [for x in xs: body(x)] *)
Fixpoint for_each {X : Type} (xs : list X) (body : X -> prog unit)
    : prog unit :=
  match xs with
  | [] => Ret tt
  | x :: xs' => body x ;; for_each xs' body
  end.

(** A fallible call returns its value or raises. *)
Definition returned {A : Type} (r : exc + A) : prog A :=
  match r with
  | inl e => Raise e
  | inr a => Ret a
  end.

(** [print(text)]; the console adds the line end. *)
Definition print (text : str) : prog unit := Print text (Ret tt).

(** [subprocess.run(args, check=check)], giving the return code. *)
Definition subprocess_run (args : list str) (check : bool) : prog Z :=
  SubprocessRun args (fun r =>
    code <- returned r ;;
    if check && negb (code =? 0)%Z
    then Raise (Exc CalledProcessError (py "non-zero exit status"))
    else Ret code).

(** [os.walk(top)]: the entries in the order the generator yields them. *)
Definition os_walk (top : str) : prog (list walk_entry) :=
  OsWalk top (fun r => Ret r).

(** [open(path, mode, errors=errors)] followed by reading the lines. *)
Definition open_ (path mode : str) (errors : option str) : prog (list str) :=
  Open path mode errors returned.

(** [requests.head(url, timeout=timeout).status_code] *)
Definition requests_head (url : str) (timeout : Z) : prog Z :=
  RequestsHead url timeout returned.

(** [importlib.import_module(name)] *)
Definition import_module (name : str) : prog unit :=
  ImportModule name returned.

(** An action that ends normally or raises. *)
Definition ended (r : option exc) : prog unit :=
  match r with
  | None => Ret tt
  | Some e => Raise e
  end.

(** The end of [for line in file] over a file read under strict
    decoding: the lines are exhausted, or the read raises. *)
Definition read_end (path : str) : prog unit := ReadEnd path ended.

(** [print(text)] for a text of the script that holds a character
    outside ASCII: it raises when the console cannot encode it. *)
Definition print_encoded (text : str) : prog unit := PrintEncoded text ended.

(** ** The script *)

(** Lines 7-12. *)
Definition check_imports : prog unit :=
  print (py "Checking imports...") ;;
  try_except
    (subprocess_run [py "flake8"; py "."] false ;; Ret tt)
    is_Exception
    (fun e => print (py "Error running flake8:" ++ py " " ++ exc_msg e)).

(** Line 19: the allow-listed extensions. *)
Definition extensions : list str :=
  [py ".py"; py ".md"; py ".html"; py ".txt"].

(** Lines 25-30: the probe of one URL candidate. *)
Definition probe (url : str) : prog unit :=
  try_except
    (status_code <- requests_head url 5 ;;
     if (status_code >=? 400)%Z
     then print (py "[BAD LINK] " ++ url ++ py " -> " ++ str_of_int status_code)
     else Ret tt)
    is_Exception
    (fun e => print (py "[ERROR] " ++ url ++ py " -> " ++ exc_msg e)).

(** Line 23: the list [urls]. *)
Definition candidates (line : str) : list str :=
  filter (startswith (py "http")) (split line).

(** Lines 22-30: the body of [for line in file]. *)
Definition scan_line (line : str) : prog unit :=
  if contains (py "http") line
  then for_each (candidates line) probe
  else Ret tt.

(** Lines 19-30: the body of [for f in files]. *)
Definition scan_file (root f : str) : prog unit :=
  if endswith_any extensions f
  then file <- open_ (path_join root f) (py "r") (Some (py "ignore")) ;;
       for_each file scan_line
  else Ret tt.

(** Lines 18-30: the body of [for root, _, files in os.walk(base_path)]. *)
Definition scan_dir (entry : walk_entry) : prog unit :=
  let '(root, _, files) := entry in
  for_each files (scan_file root).

(** Lines 15-30. *)
Definition check_urls (base_path : str) : prog unit :=
  print (nl ++ py "Checking external links...") ;;
  tree <- os_walk base_path ;;
  for_each tree scan_dir.

(** Line 37: [line.strip().split("==")[0]]. *)
Definition pkg_of (line : str) : str :=
  hd [] (split_sep (py "==") (strip line)).

(** Lines 37-43: the body of [for line in req]. *)
Definition check_line (line : str) : prog unit :=
  let pkg := pkg_of line in
  match pkg with
  | [] => Ret tt
  | _ =>
      try_except (import_module pkg) is_ImportError
        (fun _ => print (py "[MISSING] " ++ pkg))
  end.

Definition manifest : str := py "requirements.txt".

(** Lines 33-43. *)
Definition check_dependencies : prog unit :=
  print (nl ++ py "Checking dependencies...") ;;
  req <- open_ manifest (py "r") None ;;
  for_each req check_line ;;
  read_end manifest.

Definition start_banner : str := py "Running full project check..." ++ nl.

Definition completion_banner : str :=
  nl ++ [9989%N] ++
  py " Scan complete. Fix manually or auto-install missing dependencies.".

(** Lines 45-50: the body of [if __name__ == "__main__"]. *)
Definition main : prog unit :=
  print start_banner ;;
  check_imports ;;
  check_urls (py ".") ;;
  check_dependencies ;;
  print_encoded completion_banner.

(** Lines 46-49: [main] up to its last statement. *)
Definition checks : prog unit :=
  print start_banner ;;
  check_imports ;;
  check_urls (py ".") ;;
  check_dependencies.

(** ** Worlds and runs *)

(** The outside world: it answers each call from its own state. *)
Record World (S : Type) : Type := {
  w_subprocess : list str -> S -> (exc + Z) * S;
  w_walk : str -> S -> list walk_entry * S;
  w_open : str -> str -> option str -> S -> (exc + list str) * S;
  w_head : str -> Z -> S -> (exc + Z) * S;
  w_import : str -> S -> (exc + unit) * S;
  w_read_end : str -> S -> option exc * S;
  w_encode : str -> S -> option exc * S
}.

Arguments w_subprocess {S} _ _ _.
Arguments w_walk {S} _ _ _.
Arguments w_open {S} _ _ _ _ _.
Arguments w_head {S} _ _ _ _.
Arguments w_import {S} _ _ _.
Arguments w_read_end {S} _ _ _.
Arguments w_encode {S} _ _ _.

(** What an observer sees: each call with its answer. *)
Inductive obs : Type :=
| OPrint (text : str)
| OSubprocess (args : list str) (r : exc + Z)
| OWalk (top : str) (r : list walk_entry)
| OOpen (path mode : str) (errors : option str) (r : exc + list str)
| OHead (url : str) (timeout : Z) (r : exc + Z)
| OImport (name : str) (r : exc + unit)
| OReadEnd (path : str) (r : option exc)
| OPrintFailed (text : str) (e : exc).

Definition result (S A : Type) : Type := (list obs * (exc + A) * S)%type.

Definition trace {S A : Type} (r : result S A) : list obs := fst (fst r).
Definition outcome {S A : Type} (r : result S A) : exc + A := snd (fst r).
Definition final {S A : Type} (r : result S A) : S := snd r.

(** Put an observation in front of a run. *)
Definition seen {S A : Type} (o : obs) (r : result S A) : result S A :=
  (o :: trace r, outcome r, final r).

Fixpoint run {S A : Type} (W : World S) (p : prog A) (s : S) : result S A :=
  match p with
  | Ret a => ([], inr a, s)
  | Raise e => ([], inl e, s)
  | Print t k => seen (OPrint t) (run W k s)
  | SubprocessRun a k =>
      let (r, s1) := w_subprocess W a s in
      seen (OSubprocess a r) (run W (k r) s1)
  | OsWalk t k =>
      let (r, s1) := w_walk W t s in
      seen (OWalk t r) (run W (k r) s1)
  | Open p m e k =>
      let (r, s1) := w_open W p m e s in
      seen (OOpen p m e r) (run W (k r) s1)
  | RequestsHead u t k =>
      let (r, s1) := w_head W u t s in
      seen (OHead u t r) (run W (k r) s1)
  | ImportModule n k =>
      let (r, s1) := w_import W n s in
      seen (OImport n r) (run W (k r) s1)
  | ReadEnd p k =>
      let (r, s1) := w_read_end W p s in
      seen (OReadEnd p r) (run W (k r) s1)
  | PrintEncoded t k =>
      let (r, s1) := w_encode W t s in
      seen (match r with
            | None => OPrint t
            | Some e => OPrintFailed t e
            end)
           (run W (k r) s1)
  end.

(** The exit status of the process: 0 when the script runs to its end, 1
    when an exception of the model, which derives from [Exception],
    reaches the top level.  A module that ends the process itself while
    it is imported ([sys.exit]) is not a run of the model. *)
Definition exit_status {A : Type} (o : exc + A) : Z :=
  match o with
  | inr _ => 0
  | inl _ => 1
  end.

(** Sequencing of runs: the second run starts where the first one
    stopped, unless the first one raised. *)
Definition and_then {S A B : Type} (r1 : result S A)
    (k : A -> S -> result S B) : result S B :=
  match outcome r1 with
  | inl e => (trace r1, inl e, final r1)
  | inr a =>
      let r2 := k a (final r1) in
      (trace r1 ++ trace r2, outcome r2, final r2)
  end.

(** A run under [try]/[except]. *)
Definition or_else {S A : Type} (r1 : result S A) (catches : exc -> bool)
    (k : exc -> S -> result S A) : result S A :=
  match outcome r1 with
  | inr a => r1
  | inl e =>
      if catches e
      then let r2 := k e (final r1) in
           (trace r1 ++ trace r2, outcome r2, final r2)
      else r1
  end.

(** ** Reading a trace *)

(** The texts given to [print], in order. *)
Fixpoint stdout (tr : list obs) : list str :=
  match tr with
  | [] => []
  | OPrint t :: tr' => t :: stdout tr'
  | _ :: tr' => stdout tr'
  end.

(** The HEAD requests with their answers, in order. *)
Fixpoint probes (tr : list obs) : list (str * Z * (exc + Z)) :=
  match tr with
  | [] => []
  | OHead u t r :: tr' => (u, t, r) :: probes tr'
  | _ :: tr' => probes tr'
  end.

(** The paths given to [open], in order. *)
Fixpoint opened (tr : list obs) : list str :=
  match tr with
  | [] => []
  | OOpen p _ _ _ :: tr' => p :: opened tr'
  | _ :: tr' => opened tr'
  end.

(** The module names given to [import_module], in order. *)
Fixpoint imported (tr : list obs) : list str :=
  match tr with
  | [] => []
  | OImport n _ :: tr' => n :: imported tr'
  | _ :: tr' => imported tr'
  end.

(** The lines a probe with answer [r] puts on the console. *)
Definition diagnostic (url : str) (r : exc + Z) : list str :=
  match r with
  | inl e => [py "[ERROR] " ++ url ++ py " -> " ++ exc_msg e]
  | inr code =>
      if (code >=? 400)%Z
      then [py "[BAD LINK] " ++ url ++ py " -> " ++ str_of_int code]
      else []
  end.

Definition probe_diagnostic (p : str * Z * (exc + Z)) : list str :=
  let '(url, _, r) := p in diagnostic url r.

(** A probe fails when it raises or answers with a code of 400 or more. *)
Definition failing (r : exc + Z) : bool :=
  match r with
  | inl _ => true
  | inr code => (code >=? 400)%Z
  end.

(** What an import with answer [r] puts on the console. *)
Definition missing_line (pkg : str) (r : exc + unit) : list str :=
  match r with
  | inl e => if is_ImportError e then [py "[MISSING] " ++ pkg] else []
  | inr _ => []
  end.

(** How [try: import_module(pkg)  except ImportError: ...] ends. *)
Definition after_import (r : exc + unit) : exc + unit :=
  match r with
  | inl e => if is_ImportError e then inr tt else inl e
  | inr _ => inr tt
  end.

(** What the scanner is to open in a tree: the allow-listed files. *)
Definition scan_targets (tree : list walk_entry) : list str :=
  flat_map (fun entry : walk_entry =>
              let '(root, _, files) := entry in
              List.map (path_join root) (filter (endswith_any extensions) files))
           tree.

(** An observation that does not touch the file system except to read:
    console output, a directory listing, a file opened for reading with
    undecodable bytes ignored, a HEAD request. *)
Definition read_only (o : obs) : bool :=
  match o with
  | OPrint _ | OWalk _ _ | OHead _ _ _ => true
  | OOpen _ m e _ =>
      str_eqb m (py "r") &&
      match e with Some x => str_eqb x (py "ignore") | None => false end
  | OSubprocess _ _ | OImport _ _ | OReadEnd _ _ | OPrintFailed _ _ => false
  end.

(** An observation that ends a run: a failed [open] of a scanned file
    or of the manifest, a failed read of the manifest, an import raising
    something else than an [ImportError], and a console that cannot
    encode the completion banner. *)
Definition fatal (o : obs) (e : exc) : Prop :=
  (exists p, o = OOpen p (py "r") (Some (py "ignore")) (inl e)) \/
  o = OOpen manifest (py "r") None (inl e) \/
  o = OReadEnd manifest (Some e) \/
  (exists n, o = OImport n (inl e) /\ is_ImportError e = false) \/
  o = OPrintFailed completion_banner e.

(** The exception a run ended with, if any. *)
Definition raised {A : Type} (o : exc + A) : option exc :=
  match o with
  | inl e => Some e
  | inr _ => None
  end.

(** A property of a run, as a property of its trace and of the
    exception it raised. *)
Definition holds {S A : Type} (R : list obs -> option exc -> Prop)
    (r : result S A) : Prop :=
  R (trace r) (raised (outcome r)).

(** A raised run stops at the observation that raised. *)
Definition stops_at_fatal (tr : list obs) (o : option exc) : Prop :=
  match o with
  | None => True
  | Some e => exists tr0 last, tr = tr0 ++ [last] /\ fatal last e
  end.

(** On the console of the scanner: the diagnostics of its probes, and
    nothing else; every probe has timeout 5. *)
Definition reports_probes (tr : list obs) (o : option exc) : Prop :=
  stdout tr = flat_map probe_diagnostic (probes tr) /\
  Forall (fun p : str * Z * (exc + Z) => snd (fst p) = 5%Z) (probes tr).

(** ** Sample worlds *)

Fixpoint assoc {V : Type} (table : list (str * V)) (default : V) (key : str)
    : V :=
  match table with
  | [] => default
  | (k, v) :: table' => if str_eqb k key then v else assoc table' default key
  end.

(** A world without state, given by tables. *)
Definition static_world (lint : exc + Z) (tree : list walk_entry)
    (files : str -> exc + list str) (web : str -> exc + Z)
    (modules : str -> exc + unit) : World unit :=
  {| w_subprocess := fun _ s => (lint, s);
     w_walk := fun _ s => (tree, s);
     w_open := fun p _ _ s => (files p, s);
     w_head := fun u _ s => (web u, s);
     w_import := fun n s => (modules n, s);
     w_read_end := fun _ s => (None, s);
     w_encode := fun _ s => (None, s) |}.

Definition no_such_file : exc + list str :=
  inl (Exc FileNotFoundError (py "No such file or directory")).

Definition sample_tree : list walk_entry :=
  [ (py ".", [py "docs"], [py "README.md"; py "logo.png"; py "notes.txt"]);
    (py "./docs", [], [py "index.html"; py "data.json"]) ].

Definition sample_files : list (str * (exc + list str)) :=
  [ (py "./README.md",
     inr [py "See http://ok.example and http://gone.example/x" ++ nl;
          py "no links here" ++ nl]);
    (py "./notes.txt", inr [py "mirror: http://slow.example" ++ nl]);
    (py "./docs/index.html", inr [py "<p>plain</p>" ++ nl]);
    (py "./logo.png", inr [py "http://hidden.example" ++ nl]);
    (py "requirements.txt",
     inr [py "requests==2.31.0" ++ nl; nl; py "not_a_real_pkg_xyz" ++ nl]) ].

Definition sample_web : list (str * (exc + Z)) :=
  [ (py "http://ok.example", inr 200%Z);
    (py "http://gone.example/x", inr 404%Z);
    (py "http://slow.example", inl (Exc RequestsTimeout (py "timed out"))) ].

Definition sample_modules : list (str * (exc + unit)) :=
  [ (py "requests", inr tt);
    (py "boom", inl (Exc RuntimeError (py "boom at import time"))) ].

Definition no_such_module : exc + unit :=
  inl (Exc ModuleNotFoundError (py "No module named that")).

(** flake8 runs and reports findings (exit status 1); every file can be
    read. *)
Definition sample_world : World unit :=
  static_world (inr 1%Z) sample_tree
    (assoc sample_files no_such_file)
    (assoc sample_web (inl (Exc RequestsConnectionError (py "no route"))))
    (assoc sample_modules no_such_module).

(** The same, with README.md unreadable. *)
Definition locked_world : World unit :=
  static_world (inr 1%Z) sample_tree
    (assoc ((py "./README.md",
             inl (Exc PermissionError (py "Permission denied")))
            :: sample_files) no_such_file)
    (assoc sample_web (inl (Exc RequestsConnectionError (py "no route"))))
    (assoc sample_modules no_such_module).

(** The same as [sample_world], with a manifest naming a module whose
    own code raises when imported. *)
Definition boom_world : World unit :=
  static_world (inr 1%Z) sample_tree
    (assoc ((py "requirements.txt",
             inr [py "boom" ++ nl; py "not_a_real_pkg_xyz" ++ nl])
            :: sample_files) no_such_file)
    (assoc sample_web (inl (Exc RequestsConnectionError (py "no route"))))
    (assoc sample_modules no_such_module).

(** The same as [sample_world], without a manifest and without flake8. *)
Definition bare_world : World unit :=
  static_world (inl (Exc FileNotFoundError (py "No such file: flake8")))
    sample_tree
    (assoc ((py "requirements.txt", no_such_file) :: sample_files)
           no_such_file)
    (assoc sample_web (inl (Exc RequestsConnectionError (py "no route"))))
    (assoc sample_modules no_such_module).

(** A world with a counter: the first HEAD request is answered 503, the
    later ones 200. *)
Definition flaky_world : World nat :=
  {| w_subprocess := fun _ s => (inr 0%Z, s);
     w_walk := fun _ s => (sample_tree, s);
     w_open := fun p _ _ s => (assoc sample_files no_such_file p, s);
     w_head := fun _ _ s =>
       (match s with O => inr 503%Z | _ => inr 200%Z end, S s);
     w_import := fun n s => (assoc sample_modules no_such_module n, s);
     w_read_end := fun _ s => (None, s);
     w_encode := fun _ s => (None, s) |}.

(** The sample world, with a manifest that holds, after its three
    lines, bytes that cannot be decoded: the lines are yielded, then the
    read raises. *)
Definition garbled_world : World unit :=
  {| w_subprocess := fun _ s => (inr 1%Z, s);
     w_walk := fun _ s => (sample_tree, s);
     w_open := fun p _ _ s => (assoc sample_files no_such_file p, s);
     w_head := fun u _ s =>
       (assoc sample_web (inl (Exc RequestsConnectionError (py "no route")))
          u, s);
     w_import := fun n s => (assoc sample_modules no_such_module n, s);
     w_read_end := fun _ s =>
       (Some (Exc UnicodeDecodeError (py "invalid start byte")), s);
     w_encode := fun _ s => (None, s) |}.

(** The sample world, on a console that encodes ASCII only. *)
Definition ascii_world : World unit :=
  {| w_subprocess := fun _ s => (inr 1%Z, s);
     w_walk := fun _ s => (sample_tree, s);
     w_open := fun p _ _ s => (assoc sample_files no_such_file p, s);
     w_head := fun u _ s =>
       (assoc sample_web (inl (Exc RequestsConnectionError (py "no route")))
          u, s);
     w_import := fun n s => (assoc sample_modules no_such_module n, s);
     w_read_end := fun _ s => (None, s);
     w_encode := fun _ s =>
       (Some (Exc UnicodeEncodeError (py "can't encode character")), s) |}.

(** ** Further readings of a trace *)

(** The lines of the files opened with success, in order. *)
Fixpoint lines_read (tr : list obs) : list str :=
  match tr with
  | [] => []
  | OOpen _ _ _ (inr lines) :: tr' => lines ++ lines_read tr'
  | _ :: tr' => lines_read tr'
  end.

(** The commands given to [subprocess.run], in order. *)
Fixpoint launched (tr : list obs) : list (list str) :=
  match tr with
  | [] => []
  | OSubprocess a _ :: tr' => a :: launched tr'
  | _ :: tr' => launched tr'
  end.

(** The directories given to [os.walk], in order. *)
Fixpoint walked (tr : list obs) : list str :=
  match tr with
  | [] => []
  | OWalk t _ :: tr' => t :: walked tr'
  | _ :: tr' => walked tr'
  end.

(** The imports with their answers, in order. *)
Fixpoint import_results (tr : list obs) : list (str * (exc + unit)) :=
  match tr with
  | [] => []
  | OImport n r :: tr' => (n, r) :: import_results tr'
  | _ :: tr' => import_results tr'
  end.

Definition import_line (p : str * (exc + unit)) : list str :=
  missing_line (fst p) (snd p).

(** [not pkg], the test of line 38. *)
Definition is_empty (pkg : str) : bool :=
  match pkg with
  | [] => true
  | _ :: _ => false
  end.

(** The names a manifest asks for: the non-empty ones, in order. *)
Definition manifest_names (req : list str) : list str :=
  filter (fun pkg => negb (is_empty pkg)) (List.map pkg_of req).

(** The shapes of the lines the script prints. *)
Definition console_line (t : str) : Prop :=
  In t [start_banner; py "Checking imports...";
        nl ++ py "Checking external links...";
        nl ++ py "Checking dependencies..."; completion_banner] \/
  startswith (py "Error running flake8: ") t = true \/
  startswith (py "[BAD LINK] ") t = true \/
  startswith (py "[ERROR] ") t = true \/
  startswith (py "[MISSING] ") t = true.

(** Project the components of the results at hand. *)
Ltac project_results :=
  unfold seen in *; unfold trace, outcome, final in *; cbn [fst snd] in *.

(** * Properties *)

Example sample_run_stdout :
  stdout (trace (run sample_world main tt))
  = [ start_banner;
      py "Checking imports...";
      nl ++ py "Checking external links...";
      py "[BAD LINK] http://gone.example/x -> 404";
      py "[ERROR] http://slow.example -> timed out";
      nl ++ py "Checking dependencies...";
      py "[MISSING] not_a_real_pkg_xyz";
      completion_banner ].
Proof. vm_compute. reflexivity. Qed.

Example sample_run_opened :
  opened (trace (run sample_world main tt))
  = [py "./README.md"; py "./notes.txt"; py "./docs/index.html";
     py "requirements.txt"].
Proof. vm_compute. reflexivity. Qed.

Example sample_run_imported :
  imported (trace (run sample_world main tt))
  = [py "requests"; py "not_a_real_pkg_xyz"].
Proof. vm_compute. reflexivity. Qed.

Example sample_run_probes :
  probes (trace (run sample_world main tt))
  = [ (py "http://ok.example", 5%Z, inr 200%Z);
      (py "http://gone.example/x", 5%Z, inr 404%Z);
      (py "http://slow.example", 5%Z,
       inl (Exc RequestsTimeout (py "timed out"))) ].
Proof. vm_compute. reflexivity. Qed.

(** A manifest that cannot be decoded to its end: the lines yielded are
    checked, then the read raises and the run ends without banner. *)
Example garbled_manifest_run :
  stdout (trace (run garbled_world main tt))
  = [ start_banner;
      py "Checking imports...";
      nl ++ py "Checking external links...";
      py "[BAD LINK] http://gone.example/x -> 404";
      py "[ERROR] http://slow.example -> timed out";
      nl ++ py "Checking dependencies...";
      py "[MISSING] not_a_real_pkg_xyz" ] /\
  last (trace (run garbled_world main tt)) (OPrint [])
  = OReadEnd manifest
      (Some (Exc UnicodeDecodeError (py "invalid start byte"))) /\
  exit_status (outcome (run garbled_world main tt)) = 1%Z.
Proof. split; [| split]; vm_compute; reflexivity. Qed.

(** A console that cannot encode U+2705: every check runs, then the
    print of the completion banner raises. *)
Example ascii_console_run :
  stdout (trace (run ascii_world main tt))
  = [ start_banner;
      py "Checking imports...";
      nl ++ py "Checking external links...";
      py "[BAD LINK] http://gone.example/x -> 404";
      py "[ERROR] http://slow.example -> timed out";
      nl ++ py "Checking dependencies...";
      py "[MISSING] not_a_real_pkg_xyz" ] /\
  last (trace (run ascii_world main tt)) (OPrint [])
  = OPrintFailed completion_banner
      (Exc UnicodeEncodeError (py "can't encode character")) /\
  exit_status (outcome (run ascii_world main tt)) = 1%Z.
Proof. split; [| split]; vm_compute; reflexivity. Qed.

Example split_two :
  split (py "see  http://a.org and https://b.io/x," ++ nl)
  = [py "see"; py "http://a.org"; py "and"; py "https://b.io/x,"].
Proof. reflexivity. Qed.

Example split_sep_pin :
  split_sep (py "==") (py "requests==2.31.0") = [py "requests"; py "2.31.0"].
Proof. reflexivity. Qed.

Example split_sep_triple :
  split_sep (py "==") (py "a===b==") = [py "a"; py "=b"; []].
Proof. reflexivity. Qed.

Example strip_line :
  strip (py "  requests==2.31.0 " ++ nl) = py "requests==2.31.0".
Proof. reflexivity. Qed.

Example str_of_int_404 :
  str_of_int 404 = py "404" /\ str_of_int 0 = py "0" /\ str_of_int (-7) = py "-7".
Proof. repeat split; reflexivity. Qed.

Example path_join_ex :
  path_join (py ".") (py "a.md") = py "./a.md" /\
  path_join (py "docs/") (py "a.md") = py "docs/a.md" /\
  path_join [] (py "a.md") = py "a.md".
Proof. repeat split; reflexivity. Qed.

(** ** Runs of composed programs *)

Section Runs.

Context {S : Type} (W : World S).

Lemma seen_and_then {A B : Type} (o : obs) (r : result S A)
    (k : A -> S -> result S B) :
  and_then (seen o r) k = seen o (and_then r k).
Proof.
  destruct r as [[tr [e | a]] s]; reflexivity.
Qed.

Lemma seen_or_else {A : Type} (o : obs) (r : result S A)
    (c : exc -> bool) (k : exc -> S -> result S A) :
  or_else (seen o r) c k = seen o (or_else r c k).
Proof.
  destruct r as [[tr [e | a]] s]; unfold or_else; simpl;
    [destruct (c e) |]; reflexivity.
Qed.

Lemma result_eta {A : Type} (r : result S A) :
  (trace r, outcome r, final r) = r.
Proof. destruct r as [[tr o] s]; reflexivity. Qed.

Lemma run_bind {A B : Type} (p : prog A) (f : A -> prog B) (s : S) :
  run W (bind p f) s = and_then (run W p s) (fun a => run W (f a)).
Proof.
  revert s.
  induction p as [a | e | t k IH | a k IH | t k IH | p m e k IH
                  | u t k IH | n k IH | p k IH | t k IH]; intro s; simpl.
  - unfold and_then; simpl. now rewrite result_eta.
  - reflexivity.
  - now rewrite IH, seen_and_then.
  - destruct (w_subprocess W a s) as [r s1].
    now rewrite IH, seen_and_then.
  - destruct (w_walk W t s) as [r s1].
    now rewrite IH, seen_and_then.
  - destruct (w_open W p m e s) as [r s1].
    now rewrite IH, seen_and_then.
  - destruct (w_head W u t s) as [r s1].
    now rewrite IH, seen_and_then.
  - destruct (w_import W n s) as [r s1].
    now rewrite IH, seen_and_then.
  - destruct (w_read_end W p s) as [r s1].
    now rewrite IH, seen_and_then.
  - destruct (w_encode W t s) as [r s1].
    now rewrite IH, seen_and_then.
Qed.

Lemma run_try_except {A : Type} (p : prog A) (c : exc -> bool)
    (h : exc -> prog A) (s : S) :
  run W (try_except p c h) s
  = or_else (run W p s) c (fun e => run W (h e)).
Proof.
  revert s.
  induction p as [a | e | t k IH | a k IH | t k IH | p m e k IH
                  | u t k IH | n k IH | p k IH | t k IH]; intro s; simpl.
  - reflexivity.
  - unfold or_else; simpl. destruct (c e); [|reflexivity].
    now rewrite result_eta.
  - now rewrite IH, seen_or_else.
  - destruct (w_subprocess W a s) as [r s1].
    now rewrite IH, seen_or_else.
  - destruct (w_walk W t s) as [r s1].
    now rewrite IH, seen_or_else.
  - destruct (w_open W p m e s) as [r s1].
    now rewrite IH, seen_or_else.
  - destruct (w_head W u t s) as [r s1].
    now rewrite IH, seen_or_else.
  - destruct (w_import W n s) as [r s1].
    now rewrite IH, seen_or_else.
  - destruct (w_read_end W p s) as [r s1].
    now rewrite IH, seen_or_else.
  - destruct (w_encode W t s) as [r s1].
    now rewrite IH, seen_or_else.
Qed.

Lemma run_for_each_cons {X : Type} (x : X) (xs : list X)
    (body : X -> prog unit) (s : S) :
  run W (for_each (x :: xs) body) s
  = and_then (run W (body x) s) (fun _ => run W (for_each xs body)).
Proof. simpl. apply run_bind. Qed.

Lemma run_print_then {A : Type} (t : str) (k : prog A) (s : S) :
  run W (print t ;; k) s = seen (OPrint t) (run W k s).
Proof. reflexivity. Qed.

Lemma run_print (t : str) (s : S) :
  run W (print t) s = ([OPrint t], inr tt, s).
Proof. reflexivity. Qed.

(** The run of one probe: one HEAD request with timeout 5, then the
    diagnostic of its answer; it never raises. *)
Lemma run_probe (url : str) (s : S) :
  run W (probe url) s
  = (OHead url 5 (fst (w_head W url 5 s))
       :: List.map OPrint (diagnostic url (fst (w_head W url 5 s))),
     inr tt, snd (w_head W url 5 s)).
Proof.
  unfold probe. rewrite run_try_except. simpl.
  destruct (w_head W url 5 s) as [[e | code] s1]; simpl.
  - reflexivity.
  - destruct (code >=? 400)%Z; reflexivity.
Qed.

(** The run of the lint runner: it never raises and never looks at the
    return code. *)
Lemma run_check_imports (s : S) :
  run W check_imports s
  = (OPrint (py "Checking imports...")
       :: OSubprocess [py "flake8"; py "."]
            (fst (w_subprocess W [py "flake8"; py "."] s))
       :: match fst (w_subprocess W [py "flake8"; py "."] s) with
          | inl e =>
              [OPrint (py "Error running flake8:" ++ py " " ++ exc_msg e)]
          | inr _ => []
          end,
     inr tt, snd (w_subprocess W [py "flake8"; py "."] s)).
Proof.
  unfold check_imports. rewrite run_print_then, run_try_except.
  unfold or_else, subprocess_run; simpl.
  destruct (w_subprocess W [py "flake8"; py "."] s) as [[e | code] s1];
    reflexivity.
Qed.

End Runs.

(** ** Properties kept by sequencing *)

Section Invariants.

Context {S : Type} (W : World S).
Variable R : list obs -> option exc -> Prop.
Hypothesis R_nil : R [] None.
Hypothesis R_app : forall a b o, R a None -> R b o -> R (a ++ b) o.

Lemma holds_and_then {A B : Type} (r : result S A)
    (k : A -> S -> result S B) :
  holds R r -> (forall a s, holds R (k a s)) -> holds R (and_then r k).
Proof.
  unfold holds, and_then. intros Hr Hk.
  destruct r as [[tr [e | a]] s]; simpl in *.
  - exact Hr.
  - apply R_app; [exact Hr | apply Hk].
Qed.

Lemma holds_seen {A : Type} (o : obs) (r : result S A) :
  R [o] None -> holds R r -> holds R (seen o r).
Proof.
  unfold holds. intros Ho Hr.
  destruct r as [[tr out] s]. apply (R_app [o] tr); assumption.
Qed.

Lemma holds_for_each {X : Type} (body : X -> prog unit) (xs : list X) :
  (forall x s, holds R (run W (body x) s)) ->
  forall s, holds R (run W (for_each xs body) s).
Proof.
  intros Hbody. induction xs as [| x xs IH]; intro s.
  - exact R_nil.
  - rewrite run_for_each_cons. apply holds_and_then; auto.
Qed.

(** *** The scanner's loops *)

Hypothesis R_probe : forall url r,
  R (OHead url 5 r :: List.map OPrint (diagnostic url r)) None.

Lemma holds_scan_line (line : str) (s : S) :
  holds R (run W (scan_line line) s).
Proof.
  unfold scan_line. destruct (contains (py "http") line).
  - apply holds_for_each. intros url s0. rewrite run_probe. apply R_probe.
  - exact R_nil.
Qed.

Hypothesis R_open : forall p lines,
  R [OOpen p (py "r") (Some (py "ignore")) (inr lines)] None.
Hypothesis R_open_failed : forall p e,
  R [OOpen p (py "r") (Some (py "ignore")) (inl e)] (Some e).

Lemma holds_scan_file (root f : str) (s : S) :
  holds R (run W (scan_file root f) s).
Proof.
  unfold scan_file. destruct (endswith_any extensions f); [| exact R_nil].
  unfold open_. simpl.
  destruct (w_open W (path_join root f) (py "r") (Some (py "ignore")) s)
    as [[e | lines] s1]; simpl.
  - apply R_open_failed.
  - apply holds_seen; [apply R_open |].
    apply holds_for_each. apply holds_scan_line.
Qed.

Lemma holds_scan_tree (tree : list walk_entry) (s : S) :
  holds R (run W (for_each tree scan_dir) s).
Proof.
  apply holds_for_each. intros [[root dirs] files] s0.
  apply holds_for_each. apply holds_scan_file.
Qed.

End Invariants.

(** ** Facts about the string operations *)

Lemma startswith_iff (pre s : str) :
  startswith pre s = true <-> exists rest, s = pre ++ rest.
Proof.
  revert s. induction pre as [| p pre IH]; intro s; simpl.
  - split; [intros _; now exists s | reflexivity].
  - destruct s as [| c s'].
    + split; [discriminate | intros [rest H]; discriminate].
    + rewrite andb_true_iff, N.eqb_eq, IH. split.
      * intros [-> [rest ->]]. now exists rest.
      * intros [rest H]. injection H as -> ->. split; [reflexivity |].
        now exists rest.
Qed.

Lemma contains_iff (sub s : str) :
  contains sub s = true <-> exists a b, s = a ++ sub ++ b.
Proof.
  induction s as [| c s' IH]; simpl.
  - rewrite orb_false_r, startswith_iff. split.
    + intros [rest H]. now exists [], rest.
    + intros [a [b H]]. destruct a; [now exists b | discriminate].
  - rewrite orb_true_iff, startswith_iff, IH. split.
    + intros [[rest H] | [a [b H]]].
      * now exists [], rest.
      * exists (c :: a), b. simpl. now rewrite H.
    + intros [[| x a] [b H]].
      * left. now exists b.
      * right. injection H as _ H. now exists a, b.
Qed.

(** Every token of [split] is a piece of the line. *)
Lemma split_ws_piece (s cur t : str) :
  In t (split_ws cur s) -> exists a b, rev cur ++ s = a ++ t ++ b.
Proof.
  revert cur. induction s as [| c s' IH]; intros cur H; simpl in H.
  - destruct cur as [| x cur']; [contradiction |].
    destruct H as [<- | []]. exists [], []. now rewrite app_nil_r.
  - destruct (isspace c).
    + assert (Hrest : In t (split_ws [] s') ->
                      exists a b, rev cur ++ c :: s' = a ++ t ++ b).
      { intros H'. destruct (IH [] H') as [a [b E]]. simpl in E.
        exists (rev cur ++ c :: a), b. rewrite E.
        now rewrite <- app_assoc. }
      destruct cur as [| x cur']; [now apply Hrest |].
      destruct H as [<- | H]; [| now apply Hrest].
      exists [], (c :: s'). reflexivity.
    + destruct (IH (c :: cur) H) as [a [b E]]. exists a, b.
      rewrite <- E. simpl. now rewrite <- app_assoc.
Qed.

Lemma candidates_need_http (line : str) :
  contains (py "http") line = false -> candidates line = [].
Proof.
  intros Hno. unfold candidates.
  destruct (filter (startswith (py "http")) (split line)) as [| t l] eqn:E;
    [reflexivity | exfalso].
  assert (Ht : In t (filter (startswith (py "http")) (split line)))
    by (rewrite E; now left).
  apply filter_In in Ht. destruct Ht as [Hin Hpre].
  apply split_ws_piece in Hin. destruct Hin as [a [b Hab]]. simpl in Hab.
  apply startswith_iff in Hpre. destruct Hpre as [rest ->].
  assert (Hyes : contains (py "http") line = true).
  { apply contains_iff. exists a, (rest ++ b). rewrite Hab.
    now rewrite <- app_assoc. }
  congruence.
Qed.

(** [split] cuts at every whitespace character... *)
Lemma split_ws_at_space (a b cur : str) (c : N) :
  isspace c = true ->
  split_ws cur (a ++ c :: b) = split_ws cur a ++ split_ws [] b.
Proof.
  intro Hc. revert cur. induction a as [| x a IH]; intro cur; simpl.
  - rewrite Hc. destruct cur; reflexivity.
  - destruct (isspace x).
    + destruct cur; simpl; now rewrite IH.
    + apply IH.
Qed.

(** ... and nowhere else. *)
Lemma split_ws_no_space (s cur : str) :
  forallb (fun c => negb (isspace c)) s = true ->
  split_ws cur s = match rev cur ++ s with [] => [] | t => [t] end.
Proof.
  revert cur. induction s as [| c s IH]; intros cur H; simpl.
  - rewrite app_nil_r. destruct cur as [| x cur]; [reflexivity |].
    destruct (rev (x :: cur)) eqn:E; [| reflexivity].
    apply (f_equal (@List.length N)) in E. rewrite length_rev in E.
    discriminate.
  - simpl in H. apply andb_true_iff in H. destruct H as [Hc Hs].
    apply negb_true_iff in Hc. rewrite Hc, (IH _ Hs). simpl.
    now rewrite <- app_assoc.
Qed.

(** The first piece of [s.split(sep)] is [s] up to the first occurrence
    of [sep]. *)
Lemma split_go_hd (sep s cur : str) :
  exists x rest,
    hd [] (split_go sep 0 cur s) = rev cur ++ x /\
    s = x ++ rest /\
    (rest = [] \/ startswith sep rest = true) /\
    (forall a b, s = a ++ sep ++ b -> List.length x <= List.length a).
Proof.
  revert cur. induction s as [| c s IH]; intro cur.
  - exists [], []. simpl. rewrite app_nil_r.
    repeat split; auto. intros; lia.
  - cbn [split_go]. destruct (startswith sep (c :: s)) eqn:Hpre.
    + exists [], (c :: s). simpl. rewrite app_nil_r.
      repeat split; auto. intros; lia.
    + destruct (IH (c :: cur)) as [x [rest [Hhd [Hs [Hrest Hfirst]]]]].
      exists (c :: x), rest. rewrite Hhd. simpl. rewrite <- app_assoc.
      repeat split; auto.
      * now rewrite Hs at 1.
      * intros [| y a] b E.
        -- assert (startswith sep (c :: s) = true)
             by (apply startswith_iff; now exists b).
           congruence.
        -- injection E as _ E. simpl. apply le_n_S. eapply Hfirst, E.
Qed.

Lemma lstrip_blank (s : str) :
  forallb isspace s = true -> lstrip s = [].
Proof.
  induction s as [| c s IH]; simpl; [reflexivity |].
  intro H. apply andb_true_iff in H. destruct H as [-> H]. now apply IH.
Qed.

Lemma strip_blank (s : str) :
  forallb isspace s = true -> strip s = [].
Proof.
  intro H. unfold strip. now rewrite (lstrip_blank s H).
Qed.

(** A separator-free tail does not change how a path ends. *)
Lemma startswith_before_sep (suf x r : str) (c : N) :
  forallb (fun y => negb (N.eqb y c)) suf = true ->
  startswith suf (x ++ c :: r) = startswith suf x.
Proof.
  revert x. induction suf as [| y suf IH]; intros x H; [reflexivity |].
  simpl in H. apply andb_true_iff in H. destruct H as [Hy Hsuf].
  destruct x as [| z x]; simpl.
  - apply negb_true_iff in Hy. now rewrite Hy.
  - now rewrite (IH x Hsuf).
Qed.

Lemma endswith_after_sep (suf r x : str) (c : N) :
  forallb (fun y => negb (N.eqb y c)) (rev suf) = true ->
  endswith suf (r ++ c :: x) = endswith suf x.
Proof.
  intro H. unfold endswith. rewrite rev_app_distr.
  change (rev (c :: x)) with (rev x ++ [c]).
  rewrite <- app_assoc. now apply startswith_before_sep.
Qed.

Lemma endswith_any_path_join (root f : str) :
  endswith_any extensions (path_join root f) = endswith_any extensions f.
Proof.
  assert (Hsep : forall x r,
            endswith_any extensions (r ++ 47%N :: x)
            = endswith_any extensions x).
  { intros x r. unfold endswith_any, extensions. cbn [existsb].
    now rewrite !endswith_after_sep by reflexivity. }
  unfold path_join.
  destruct (startswith (py "/") f); [reflexivity |].
  destruct root as [| c root]; [reflexivity |].
  destruct (endswith (py "/") (c :: root)) eqn:E.
  - unfold endswith in E. apply startswith_iff in E. destruct E as [r E].
    apply (f_equal (@rev N)) in E. rewrite rev_involutive in E.
    change (rev (py "/")) with [47%N] in E.
    rewrite rev_app_distr in E. cbn [app rev] in E.
    rewrite E, <- app_assoc. apply Hsep.
  - apply (Hsep f (c :: root)).
Qed.

(** ** Facts about reading traces *)

Lemma stdout_app (a b : list obs) : stdout (a ++ b) = stdout a ++ stdout b.
Proof.
  induction a as [| [] a IH]; simpl; rewrite ?IH; reflexivity.
Qed.

Lemma probes_app (a b : list obs) : probes (a ++ b) = probes a ++ probes b.
Proof.
  induction a as [| [] a IH]; simpl; rewrite ?IH; reflexivity.
Qed.

Lemma opened_app (a b : list obs) : opened (a ++ b) = opened a ++ opened b.
Proof.
  induction a as [| [] a IH]; simpl; rewrite ?IH; reflexivity.
Qed.

Lemma stdout_prints (l : list str) : stdout (List.map OPrint l) = l.
Proof. induction l as [| t l IH]; simpl; [| rewrite IH]; reflexivity. Qed.

Lemma probes_prints (l : list str) : probes (List.map OPrint l) = [].
Proof. induction l as [| t l IH]; simpl; [| rewrite IH]; reflexivity. Qed.

Lemma opened_prints (l : list str) : opened (List.map OPrint l) = [].
Proof. induction l as [| t l IH]; simpl; [| rewrite IH]; reflexivity. Qed.

Lemma read_only_prints (l : list str) :
  forallb read_only (List.map OPrint l) = true.
Proof. induction l as [| t l IH]; simpl; [| rewrite IH]; reflexivity. Qed.

(** One line per failing probe. *)
Lemma diagnostics_count (ps : list (str * Z * (exc + Z))) :
  List.length (flat_map probe_diagnostic ps)
  = List.length (filter (fun p => failing (snd p)) ps).
Proof.
  induction ps as [| [[u t] r] ps IH]; [reflexivity |].
  cbn [flat_map filter]. rewrite length_app, IH.
  destruct r as [e | code]; simpl; [reflexivity |].
  destruct (code >=? 400)%Z; reflexivity.
Qed.

(** ** The link scanner *)

Section Scanner.

Context {S : Type} (W : World S).

Lemma run_check_urls (base : str) (s : S) :
  run W (check_urls base) s
  = seen (OPrint (nl ++ py "Checking external links..."))
      (seen (OWalk base (fst (w_walk W base s)))
         (run W (for_each (fst (w_walk W base s)) scan_dir)
            (snd (w_walk W base s)))).
Proof.
  unfold check_urls. rewrite run_print_then. simpl.
  destruct (w_walk W base s) as [tree s1]. reflexivity.
Qed.

Lemma scan_reports (tree : list walk_entry) (s : S) :
  holds reports_probes (run W (for_each tree scan_dir) s).
Proof.
  apply holds_scan_tree; unfold reports_probes.
  - split; [reflexivity | constructor].
  - intros a b o [Ha1 Ha2] [Hb1 Hb2].
    rewrite stdout_app, probes_app, flat_map_app, Ha1, Hb1.
    split; [reflexivity | now apply Forall_app].
  - intros url r. simpl. rewrite stdout_prints, probes_prints, app_nil_r.
    split; [reflexivity | repeat constructor].
  - intros; split; [reflexivity | constructor].
  - intros; split; [reflexivity | constructor].
Qed.

(** A raised scan stops at an [open] of its own that failed. *)
Lemma scan_raises_at_open (tree : list walk_entry) (s : S) :
  holds (fun tr o =>
           match o with
           | None => True
           | Some e =>
               exists tr0 p,
                 tr = tr0 ++ [OOpen p (py "r") (Some (py "ignore")) (inl e)]
           end)
        (run W (for_each tree scan_dir) s).
Proof.
  apply holds_scan_tree; try exact I; try (intros; exact I).
  - intros a b [e |] _ Hb; [| exact I].
    destruct Hb as [tr0 [p ->]].
    exists (a ++ tr0), p. now rewrite app_assoc.
  - intros p e. now exists [], p.
Qed.

Lemma scan_read_only (tree : list walk_entry) (s : S) :
  holds (fun tr _ => forallb read_only tr = true)
        (run W (for_each tree scan_dir) s).
Proof.
  apply holds_scan_tree; try reflexivity.
  - intros a b _ Ha Hb. rewrite forallb_app, Ha, Hb. reflexivity.
  - intros url r. simpl. apply read_only_prints.
Qed.

(** The lines of a file are scanned without opening anything. *)
Lemma scan_lines_open_nothing (lines : list str) (s : S) :
  opened (trace (run W (for_each lines scan_line) s)) = [].
Proof.
  apply (holds_for_each W (fun tr _ => opened tr = [])).
  - reflexivity.
  - intros a b _ Ha Hb. now rewrite opened_app, Ha, Hb.
  - intros line s0. apply holds_scan_line.
    + reflexivity.
    + intros a b _ Ha Hb. now rewrite opened_app, Ha, Hb.
    + intros url r. simpl. apply opened_prints.
Qed.

Lemma scan_lines_return (lines : list str) (s : S) :
  outcome (run W (for_each lines scan_line) s) = inr tt.
Proof.
  assert (H : holds (fun _ o => o = None)
                (run W (for_each lines scan_line) s)).
  { apply holds_for_each; [reflexivity | now intros a b o _ Hb |].
    intros line s0. apply holds_scan_line;
      [reflexivity | now intros a b o _ Hb | reflexivity]. }
  unfold holds in H.
  destruct (outcome (run W (for_each lines scan_line) s)) as [e | []];
    [discriminate | reflexivity].
Qed.

(** The scan of one file opens it when its name is allow-listed, and
    opens nothing else; it raises exactly when that [open] fails. *)
Lemma scan_file_opened (root f : str) (s : S) :
  opened (trace (run W (scan_file root f) s))
  = (if endswith_any extensions f then [path_join root f] else []) /\
  (outcome (run W (scan_file root f) s) = inr tt \/
   exists e,
     fst (w_open W (path_join root f) (py "r") (Some (py "ignore")) s)
     = inl e).
Proof.
  unfold scan_file. destruct (endswith_any extensions f);
    [| split; [reflexivity | now left]].
  unfold open_. cbn [bind run].
  destruct (w_open W (path_join root f) (py "r") (Some (py "ignore")) s)
    as [[e | lines] s1]; cbn [returned bind run fst].
  - split; [reflexivity | right; now exists e].
  - unfold seen. cbn [trace outcome fst snd opened].
    fold (trace (run W (for_each lines scan_line) s1)).
    fold (outcome (run W (for_each lines scan_line) s1)).
    rewrite scan_lines_open_nothing, scan_lines_return.
    split; [reflexivity | now left].
Qed.

(** The files opened are the first allow-listed ones, in order; all of
    them when the scan does not raise. *)
Lemma scan_files_opened (root : str) (files : list str) (s : S) :
  exists rest,
    List.map (path_join root) (filter (endswith_any extensions) files)
    = opened (trace (run W (for_each files (scan_file root)) s)) ++ rest /\
    (outcome (run W (for_each files (scan_file root)) s) = inr tt ->
     rest = []).
Proof.
  revert s. induction files as [| f files IH]; intro s.
  - exists []. split; reflexivity.
  - rewrite run_for_each_cons. unfold and_then.
    destruct (scan_file_opened root f s) as [Hop _].
    destruct (run W (scan_file root f) s) as [[tr [e | []]] s1];
      project_results; cbn [filter].
    + exists (List.map (path_join root)
                (filter (endswith_any extensions) files)).
      rewrite Hop. split; [| discriminate].
      destruct (endswith_any extensions f); reflexivity.
    + destruct (IH s1) as [rest [Heq Hall]]. exists rest.
      project_results.
      rewrite opened_app, Hop. split; [| exact Hall].
      destruct (endswith_any extensions f); simpl; now rewrite Heq.
Qed.

Lemma scan_tree_opened (tree : list walk_entry) (s : S) :
  exists rest,
    scan_targets tree
    = opened (trace (run W (for_each tree scan_dir) s)) ++ rest /\
    (outcome (run W (for_each tree scan_dir) s) = inr tt -> rest = []).
Proof.
  revert s. induction tree as [| [[root dirs] files] tree IH]; intro s.
  - exists []. split; reflexivity.
  - rewrite run_for_each_cons. unfold and_then. cbn [scan_targets flat_map].
    fold (scan_targets tree). cbn [scan_dir].
    destruct (scan_files_opened root files s) as [rest1 [H1 Hall1]].
    destruct (run W (for_each files (scan_file root)) s)
      as [[tr [e | []]] s1]; project_results.
    + exists (rest1 ++ scan_targets tree). rewrite H1.
      split; [now rewrite app_assoc | discriminate].
    + destruct (IH s1) as [rest [Heq Hall]]. exists rest.
      project_results.
      rewrite opened_app, H1, (Hall1 eq_refl), app_nil_r, Heq.
      split; [now rewrite app_assoc | exact Hall].
Qed.

End Scanner.

Section ScannerClaims.

Context {S : Type} (W : World S).

(** The URLs probed for a list of candidates: each one once, in order. *)
Lemma probes_for_each_probe (urls : list str) (s : S) :
  List.map (fun p : str * Z * (exc + Z) => fst (fst p))
    (probes (trace (run W (for_each urls probe) s)))
  = urls.
Proof.
  revert s. induction urls as [| u urls IH]; intro s; [reflexivity |].
  rewrite run_for_each_cons, run_probe. unfold and_then.
  project_results. cbn [app probes List.map fst].
  rewrite probes_app, probes_prints. cbn [app]. f_equal. apply IH.
Qed.

Lemma probes_scan_line (line : str) (s : S) :
  List.map (fun p : str * Z * (exc + Z) => fst (fst p))
    (probes (trace (run W (scan_line line) s)))
  = candidates line.
Proof.
  unfold scan_line. destruct (contains (py "http") line) eqn:E.
  - apply probes_for_each_probe.
  - now rewrite candidates_need_http.
Qed.

Lemma scan_targets_allow_listed (tree : list walk_entry) (p : str) :
  In p (scan_targets tree) -> endswith_any extensions p = true.
Proof.
  unfold scan_targets. rewrite in_flat_map.
  intros [[[root dirs] files] [_ Hp]].
  apply in_map_iff in Hp. destruct Hp as [f [<- Hf]].
  apply filter_In in Hf. rewrite endswith_any_path_join. apply Hf.
Qed.

End ScannerClaims.

(** C1: every probe is one HEAD request with timeout 5; its answer
    decides what is printed: a status code of 400 or more gives one
    [[BAD LINK] <url> -> <code>] line, an exception gives one
    [[ERROR] <url> -> <message>] line, a smaller status code gives
    nothing.  Over a whole scan the console holds, after the header, the
    diagnostics of the probes made and nothing else, one line per failing
    probe; every probe has timeout 5; and the candidates of a line are
    probed once each, in order, so none is retried. *)
Theorem probe_reporting {S : Type} (W : World S) (s : S) :
    (forall url,
        run W (probe url) s
        = (OHead url 5 (fst (w_head W url 5 s))
             :: match fst (w_head W url 5 s) with
                | inl e =>
                    [OPrint (py "[ERROR] " ++ url ++ py " -> " ++ exc_msg e)]
                | inr code =>
                    if (code >=? 400)%Z
                    then [OPrint (py "[BAD LINK] " ++ url ++ py " -> "
                                    ++ str_of_int code)]
                    else []
                end,
           inr tt, snd (w_head W url 5 s))) /\
    (forall base,
        Forall (fun p : str * Z * (exc + Z) => snd (fst p) = 5%Z)
          (probes (trace (run W (check_urls base) s))) /\
        stdout (trace (run W (check_urls base) s))
        = (nl ++ py "Checking external links...")
            :: flat_map probe_diagnostic
                 (probes (trace (run W (check_urls base) s))) /\
        List.length (stdout (trace (run W (check_urls base) s)))
        = 1 + List.length
                (filter (fun p : str * Z * (exc + Z) => failing (snd p))
                   (probes (trace (run W (check_urls base) s))))) /\
    (forall line,
        List.map (fun p : str * Z * (exc + Z) => fst (fst p))
          (probes (trace (run W (scan_line line) s)))
        = candidates line).
Proof.
  split; [| split].
  - intro url. rewrite run_probe.
    destruct (fst (w_head W url 5 s)) as [e | code]; simpl;
      [reflexivity |].
    destruct (code >=? 400)%Z; reflexivity.
  - intro base. rewrite run_check_urls.
    destruct (scan_reports W (fst (w_walk W base s)) (snd (w_walk W base s)))
      as [Hout Hfive].
    project_results. cbn [stdout probes].
    repeat split; [exact Hfive | now rewrite Hout |].
    rewrite Hout. cbn [List.length]. now rewrite diagnostics_count.
  - intro line. apply probes_scan_line.
Qed.

(** C5: the candidates probed for a line are the tokens of
    [line.split()] that start with "http", where [split] cuts the line at
    its whitespace characters and nowhere else.  A line without "http"
    has no candidate and is passed over; a line with exactly two such
    tokens gets exactly two probes, the second one whatever the first
    one answered. *)
Theorem candidates_probed {S : Type} (W : World S) (s : S) :
    (forall line,
        List.map (fun p : str * Z * (exc + Z) => fst (fst p))
          (probes (trace (run W (scan_line line) s)))
        = filter (startswith (py "http")) (split line)) /\
    (forall a b c,
        isspace c = true -> split (a ++ c :: b) = split a ++ split b) /\
    (forall c t,
        forallb (fun x => negb (isspace x)) (c :: t) = true ->
        split (c :: t) = [c :: t]) /\
    (forall line,
        contains (py "http") line = false ->
        filter (startswith (py "http")) (split line) = [] /\
        run W (scan_line line) s = ([], inr tt, s)) /\
    (forall line u1 u2,
        filter (startswith (py "http")) (split line) = [u1; u2] ->
        run W (scan_line line) s
        = (OHead u1 5 (fst (w_head W u1 5 s))
             :: List.map OPrint (diagnostic u1 (fst (w_head W u1 5 s)))
             ++ OHead u2 5 (fst (w_head W u2 5 (snd (w_head W u1 5 s))))
             :: List.map OPrint
                  (diagnostic u2
                     (fst (w_head W u2 5 (snd (w_head W u1 5 s))))),
           inr tt, snd (w_head W u2 5 (snd (w_head W u1 5 s))))).
Proof.
  repeat split.
  - intro line. apply probes_scan_line.
  - intros a b c Hc. now apply split_ws_at_space.
  - intros c t H. unfold split. now rewrite split_ws_no_space.
  - now apply candidates_need_http.
  - unfold scan_line. now rewrite H.
  - intros line u1 u2 H. unfold scan_line.
    destruct (contains (py "http") line) eqn:E.
    + unfold candidates. rewrite H.
      rewrite run_for_each_cons, run_probe. unfold and_then.
      project_results.
      rewrite run_for_each_cons, run_probe. unfold and_then.
      project_results. cbn [for_each run fst snd].
      now rewrite app_nil_r.
    + apply candidates_need_http in E. unfold candidates in E.
      rewrite E in H. discriminate.
Qed.

(** C5 on a line with two candidates, in a world whose first HEAD
    request is answered 503 and whose second is answered 200. *)
Lemma candidates_probed_witness :
  run flaky_world
    (scan_line (py "See http://ok.example and http://gone.example/x" ++ nl))
    0
  = ([OHead (py "http://ok.example") 5 (inr 503%Z);
      OPrint (py "[BAD LINK] http://ok.example -> 503");
      OHead (py "http://gone.example/x") 5 (inr 200%Z)],
     inr tt, 2).
Proof.
  destruct (candidates_probed flaky_world 0) as [_ [_ [_ [_ H]]]].
  exact (H (py "See http://ok.example and http://gone.example/x" ++ nl)
           (py "http://ok.example") (py "http://gone.example/x") eq_refl).
Defined.

(** C7: the scanner opens no file whose name does not end in .py, .md,
    .html or .txt: every path it opens belongs to an allow-listed entry
    of the walked tree.  It changes no file: all it does is print, list
    directories, open files for reading and send HEAD requests. *)
Theorem scanner_reads_allow_listed_only {S : Type} (W : World S) (s : S)
    (base : str) :
    (forall root dirs files f,
        In (root, dirs, files) (fst (w_walk W base s)) ->
        In f files ->
        endswith_any extensions f = false ->
        ~ In (path_join root f)
             (opened (trace (run W (check_urls base) s)))) /\
    (forall p,
        In p (opened (trace (run W (check_urls base) s))) ->
        In p (scan_targets (fst (w_walk W base s)))) /\
    forallb read_only (trace (run W (check_urls base) s)) = true.
Proof.
  rewrite run_check_urls.
  destruct (scan_tree_opened W (fst (w_walk W base s))
              (snd (w_walk W base s))) as [rest [Htargets _]].
  pose proof (scan_read_only W (fst (w_walk W base s))
                (snd (w_walk W base s))) as Hread.
  unfold holds in Hread. project_results. cbn [opened forallb read_only].
  assert (Hin : forall p,
             In p (opened (fst (fst (run W
                     (for_each (fst (w_walk W base s)) scan_dir)
                     (snd (w_walk W base s)))))) ->
             In p (scan_targets (fst (w_walk W base s)))).
  { intros p Hp. rewrite Htargets. apply in_or_app. now left. }
  repeat split.
  - intros root dirs files f _ _ Hext Hopen.
    apply Hin, scan_targets_allow_listed in Hopen.
    rewrite endswith_any_path_join in Hopen. congruence.
  - exact Hin.
  - exact Hread.
Qed.

(** C7 on the sample tree: logo.png is not opened. *)
Lemma scanner_reads_allow_listed_only_witness :
  ~ In (py "./logo.png")
       (opened (trace (run sample_world (check_urls (py ".")) tt))).
Proof.
  destruct (scanner_reads_allow_listed_only sample_world tt (py "."))
    as [H _].
  apply (H (py ".") [py "docs"]
           [py "README.md"; py "logo.png"; py "notes.txt"] (py "logo.png")).
  - left. reflexivity.
  - right. left. reflexivity.
  - reflexivity.
Defined.

(** C3, counterexample: README.md cannot be opened; the scanner raises
    the [PermissionError] and never reaches notes.txt or docs/index.html. *)
Lemma unreadable_file_stops_scan :
  run locked_world (check_urls (py ".")) tt
  = ([OPrint (nl ++ py "Checking external links...");
      OWalk (py ".") sample_tree;
      OOpen (py "./README.md") (py "r") (Some (py "ignore"))
        (inl (Exc PermissionError (py "Permission denied")))],
     inl (Exc PermissionError (py "Permission denied")), tt).
Proof. vm_compute. reflexivity. Qed.

(** C3, amended: every probe failure is caught where it happens and
    becomes a printed line, so a probe never makes the scanner raise.
    The scanner raises only when opening an allow-listed file fails, and
    stops there; when it does not raise it has opened every allow-listed
    file of the walked tree, in order. *)
Theorem scanner_completes_unless_open_fails {S : Type} (W : World S) (s : S)
    (base : str) :
    (forall url, outcome (run W (probe url) s) = inr tt) /\
    stdout (trace (run W (check_urls base) s))
    = (nl ++ py "Checking external links...")
        :: flat_map probe_diagnostic
             (probes (trace (run W (check_urls base) s))) /\
    match outcome (run W (check_urls base) s) with
    | inr _ =>
        opened (trace (run W (check_urls base) s))
        = scan_targets (fst (w_walk W base s))
    | inl e =>
        exists tr0 p,
          trace (run W (check_urls base) s)
          = tr0 ++ [OOpen p (py "r") (Some (py "ignore")) (inl e)]
    end.
Proof.
  split; [| split].
  - intro url. now rewrite run_probe.
  - rewrite run_check_urls.
    destruct (scan_reports W (fst (w_walk W base s)) (snd (w_walk W base s)))
      as [Hout _].
    project_results. cbn [stdout probes]. now rewrite Hout.
  - rewrite run_check_urls.
    destruct (scan_tree_opened W (fst (w_walk W base s))
                (snd (w_walk W base s))) as [rest [Htargets Hall]].
    pose proof (scan_raises_at_open W (fst (w_walk W base s))
                  (snd (w_walk W base s))) as Hstop.
    unfold holds in Hstop. project_results. cbn [opened].
    destruct (snd (fst (run W (for_each (fst (w_walk W base s)) scan_dir)
                          (snd (w_walk W base s))))) as [e | []].
    + destruct Hstop as [tr0 [p ->]].
      exists (OPrint (nl ++ py "Checking external links...")
                :: OWalk base (fst (w_walk W base s)) :: tr0), p.
      reflexivity.
    + now rewrite Htargets, (Hall eq_refl), app_nil_r.
Qed.

(** ** The dependency checker and the entry point *)

Section Script.

Context {S : Type} (W : World S).

Lemma and_then_ext {A B : Type} (r : result S A)
    (k k' : A -> S -> result S B) :
  (forall a s, k a s = k' a s) -> and_then r k = and_then r k'.
Proof.
  intro H. unfold and_then. destruct (outcome r); [reflexivity |].
  now rewrite H.
Qed.

Lemma and_then_assoc {A B C : Type} (r : result S A)
    (k : A -> S -> result S B) (k' : B -> S -> result S C) :
  and_then (and_then r k) k'
  = and_then r (fun a s => and_then (k a s) k').
Proof.
  unfold and_then. destruct r as [[tr [e | a]] s]; project_results;
    [reflexivity |].
  destruct (k a s) as [[tr2 [e | b]] s2]; project_results;
    [reflexivity |].
  now rewrite app_assoc.
Qed.

Lemma run_check_line (line : str) (s : S) :
  run W (check_line line) s
  = match pkg_of line with
    | [] => ([], inr tt, s)
    | _ :: _ =>
        (OImport (pkg_of line) (fst (w_import W (pkg_of line) s))
           :: List.map OPrint
                (missing_line (pkg_of line)
                   (fst (w_import W (pkg_of line) s))),
         after_import (fst (w_import W (pkg_of line) s)),
         snd (w_import W (pkg_of line) s))
    end.
Proof.
  unfold check_line. destruct (pkg_of line) as [| c pkg]; [reflexivity |].
  rewrite run_try_except. unfold import_module. cbn [run].
  destruct (w_import W (c :: pkg) s) as [[e | []] s1];
    unfold or_else; cbn; [| reflexivity].
  destruct (is_ImportError e); reflexivity.
Qed.

Lemma run_read_end (p : str) (s : S) :
  run W (read_end p) s
  = ([OReadEnd p (fst (w_read_end W p s))],
     match fst (w_read_end W p s) with
     | None => inr tt
     | Some e => inl e
     end,
     snd (w_read_end W p s)).
Proof.
  unfold read_end. cbn [run].
  destruct (w_read_end W p s) as [[e |] s1]; reflexivity.
Qed.

Lemma run_print_encoded (t : str) (s : S) :
  run W (print_encoded t) s
  = match fst (w_encode W t s) with
    | None => ([OPrint t], inr tt, snd (w_encode W t s))
    | Some e => ([OPrintFailed t e], inl e, snd (w_encode W t s))
    end.
Proof.
  unfold print_encoded. cbn [run].
  destruct (w_encode W t s) as [[e |] s1]; reflexivity.
Qed.

Lemma run_check_dependencies (s : S) :
  run W check_dependencies s
  = seen (OPrint (nl ++ py "Checking dependencies..."))
      (seen (OOpen manifest (py "r") None
               (fst (w_open W manifest (py "r") None s)))
         match fst (w_open W manifest (py "r") None s) with
         | inl e => ([], inl e, snd (w_open W manifest (py "r") None s))
         | inr req =>
             and_then
               (run W (for_each req check_line)
                  (snd (w_open W manifest (py "r") None s)))
               (fun _ => run W (read_end manifest))
         end).
Proof.
  unfold check_dependencies. rewrite run_print_then.
  unfold open_. cbn [bind run].
  destruct (w_open W manifest (py "r") None s) as [[e | req] s1];
    cbn [returned bind fst snd]; [reflexivity |].
  now rewrite run_bind.
Qed.

Lemma run_checks (s : S) :
  run W checks s
  = seen (OPrint start_banner)
      (and_then (run W check_imports s) (fun _ s1 =>
         and_then (run W (check_urls (py ".")) s1) (fun _ s2 =>
           run W check_dependencies s2))).
Proof.
  unfold checks. rewrite run_print_then. f_equal.
  rewrite run_bind. apply and_then_ext. intros _ s1.
  now rewrite run_bind.
Qed.

Lemma run_main (s : S) :
  run W main s
  = and_then (run W checks s)
      (fun _ => run W (print_encoded completion_banner)).
Proof.
  unfold main. rewrite run_print_then, run_checks, seen_and_then. f_equal.
  rewrite and_then_assoc, run_bind. apply and_then_ext. intros _ s1.
  rewrite and_then_assoc, run_bind. apply and_then_ext. intros _ s2.
  now rewrite run_bind.
Qed.

(** *** Properties kept by the whole script *)

Variable R : list obs -> option exc -> Prop.
Hypothesis R_nil : R [] None.
Hypothesis R_app : forall a b o, R a None -> R b o -> R (a ++ b) o.

Hypothesis R_import : forall n r,
  raised (after_import r) = None ->
  R (OImport n r :: List.map OPrint (missing_line n r)) None.
Hypothesis R_import_failed : forall n e,
  is_ImportError e = false -> R [OImport n (inl e)] (Some e).

Lemma holds_check_lines (req : list str) (s : S) :
  holds R (run W (for_each req check_line) s).
Proof.
  apply holds_for_each; auto. intros line s0. rewrite run_check_line.
  destruct (pkg_of line) as [| c pkg]; [exact R_nil |].
  unfold holds. project_results.
  destruct (fst (w_import W (c :: pkg) s0)) as [e | []] eqn:E.
  - destruct (is_ImportError e) eqn:He.
    + assert (Hok : raised (after_import (inl e)) = None)
        by (simpl; now rewrite He).
      rewrite Hok. now apply R_import.
    + simpl. rewrite He. now apply R_import_failed.
  - now apply R_import.
Qed.

Hypothesis R_header : forall t,
  In t [start_banner; py "Checking imports...";
        nl ++ py "Checking external links...";
        nl ++ py "Checking dependencies..."] ->
  R [OPrint t] None.
Hypothesis R_lint : forall r,
  R (OSubprocess [py "flake8"; py "."] r
       :: match r with
          | inl e =>
              [OPrint (py "Error running flake8:" ++ py " " ++ exc_msg e)]
          | inr _ => []
          end) None.
Hypothesis R_walk : forall r, R [OWalk (py ".") r] None.
Hypothesis R_probe : forall url r,
  R (OHead url 5 r :: List.map OPrint (diagnostic url r)) None.
Hypothesis R_open : forall p lines,
  R [OOpen p (py "r") (Some (py "ignore")) (inr lines)] None.
Hypothesis R_open_failed : forall p e,
  R [OOpen p (py "r") (Some (py "ignore")) (inl e)] (Some e).
Hypothesis R_manifest : forall req,
  R [OOpen manifest (py "r") None (inr req)] None.
Hypothesis R_manifest_failed : forall e,
  R [OOpen manifest (py "r") None (inl e)] (Some e).
Hypothesis R_read_end : R [OReadEnd manifest None] None.
Hypothesis R_read_failed : forall e,
  R [OReadEnd manifest (Some e)] (Some e).

Lemma holds_check_imports (s : S) : holds R (run W check_imports s).
Proof.
  rewrite run_check_imports. unfold holds. project_results.
  apply (R_app [_]); [| apply R_lint].
  apply R_header. right; left; reflexivity.
Qed.

Lemma holds_check_urls (s : S) : holds R (run W (check_urls (py ".")) s).
Proof.
  rewrite run_check_urls.
  apply holds_seen; auto.
  { apply R_header. right; right; left; reflexivity. }
  apply holds_seen; auto.
  now apply holds_scan_tree.
Qed.

Lemma holds_check_dependencies (s : S) :
  holds R (run W check_dependencies s).
Proof.
  rewrite run_check_dependencies.
  apply holds_seen; auto.
  { apply R_header. right; right; right; left; reflexivity. }
  destruct (fst (w_open W manifest (py "r") None s)) as [e | req].
  - unfold holds. project_results. apply R_manifest_failed.
  - apply holds_seen; auto.
    apply holds_and_then; auto using holds_check_lines.
    intros _ s1. rewrite run_read_end. unfold holds. project_results.
    destruct (fst (w_read_end W manifest s1)) as [e |];
      [apply R_read_failed | apply R_read_end].
Qed.

Lemma holds_checks (s : S) : holds R (run W checks s).
Proof.
  rewrite run_checks.
  apply holds_seen; auto.
  { apply R_header. left; reflexivity. }
  apply holds_and_then; auto using holds_check_imports.
  intros _ s1. apply holds_and_then; auto using holds_check_urls.
  intros _ s2. apply holds_check_dependencies.
Qed.

End Script.

Section Whole.

Context {S : Type} (W : World S).

Lemma in_stdout (t : str) (tr : list obs) :
  In (OPrint t) tr -> In t (stdout tr).
Proof.
  induction tr as [| o tr IH]; [contradiction |].
  intros [-> | H]; [now left |].
  destruct o; simpl; auto.
Qed.

(** The checks raise only at a failed [open], at a failed read of the
    manifest, or at an import that raises something else than an
    [ImportError]. *)
Lemma checks_stop_at_fatal (s : S) :
  holds stops_at_fatal (run W checks s).
Proof.
  apply holds_checks; try exact I; try (intros; exact I).
  - intros a b [e |] _ Hb; [| exact I].
    destruct Hb as [tr0 [last [-> Hf]]].
    exists (a ++ tr0), last. now rewrite app_assoc.
  - intros n e He. exists [], (OImport n (inl e)).
    split; [reflexivity |]. right. right. right. left. now exists n.
  - intros p e. exists [], (OOpen p (py "r") (Some (py "ignore")) (inl e)).
    split; [reflexivity |]. left. now exists p.
  - intros e. exists [], (OOpen manifest (py "r") None (inl e)).
    split; [reflexivity |]. right. left. reflexivity.
  - intros e. exists [], (OReadEnd manifest (Some e)).
    split; [reflexivity |]. right. right. left. reflexivity.
Qed.

(** An import that raises something else than an [ImportError] is the
    last thing the script does. *)
Lemma checks_bad_import_last (s : S) :
  holds (fun tr o =>
           forall n e,
             In (OImport n (inl e)) tr -> is_ImportError e = false ->
             o = Some e /\ exists tr0, tr = tr0 ++ [OImport n (inl e)])
        (run W checks s).
Proof.
  apply holds_checks.
  - intros n e [].
  - intros a b o Ha Hb n e Hin He. apply in_app_or in Hin.
    destruct Hin as [Hin | Hin].
    + destruct (Ha n e Hin He) as [Hno _]. discriminate.
    + destruct (Hb n e Hin He) as [Ho [tr0 ->]].
      split; [exact Ho |]. exists (a ++ tr0). now rewrite app_assoc.
  - intros n r Hok n' e [Hin | Hin] He.
    + injection Hin as -> ->. simpl in Hok. rewrite He in Hok.
      discriminate.
    + apply in_map_iff in Hin. destruct Hin as [t [Ht _]]. discriminate.
  - intros n e _ n' e' [Hin | []] _. injection Hin as -> ->.
    split; [reflexivity | now exists []].
  - intros t _ n e [Hin | []]. discriminate.
  - intros r n e [Hin | Hin]; [discriminate |].
    destruct r; [destruct Hin as [Hin | []] | destruct Hin]; discriminate.
  - intros r n e [Hin | []]. discriminate.
  - intros url r n e [Hin | Hin]; [discriminate |].
    apply in_map_iff in Hin. destruct Hin as [t [Ht _]]. discriminate.
  - intros p lines n e [Hin | []]. discriminate.
  - intros p e n e' [Hin | []]. discriminate.
  - intros req n e [Hin | []]. discriminate.
  - intros e n e' [Hin | []]. discriminate.
  - intros n e [Hin | []]. discriminate.
  - intros e n e' [Hin | []]. discriminate.
Qed.

(** What can stand on the console before the completion banner. *)
Lemma checks_lines (P : str -> Prop) (s : S) :
  P start_banner ->
  P (py "Checking imports...") ->
  P (nl ++ py "Checking external links...") ->
  P (nl ++ py "Checking dependencies...") ->
  (forall msg, P (py "Error running flake8:" ++ py " " ++ msg)) ->
  (forall url code,
      P (py "[BAD LINK] " ++ url ++ py " -> " ++ str_of_int code)) ->
  (forall url msg, P (py "[ERROR] " ++ url ++ py " -> " ++ msg)) ->
  (forall pkg, P (py "[MISSING] " ++ pkg)) ->
  Forall P (stdout (trace (run W checks s))).
Proof.
  intros Pstart Pimports Plinks Pdeps Plint Pbad Perr Pmissing.
  apply (holds_checks W (fun tr _ => Forall P (stdout tr))).
  - constructor.
  - intros a b _ Ha Hb. rewrite stdout_app. now apply Forall_app.
  - intros n r _. cbn [stdout]. rewrite stdout_prints.
    destruct r as [e | u]; simpl; [| constructor].
    destruct (is_ImportError e); repeat constructor. apply Pmissing.
  - intros; constructor.
  - intros t [<- | [<- | [<- | [<- | []]]]]; repeat constructor; assumption.
  - intros [e | code]; repeat constructor. apply Plint.
  - intros; constructor.
  - intros url r. cbn [stdout]. rewrite stdout_prints.
    destruct r as [e | code]; simpl.
    + repeat constructor. apply Perr.
    + destruct (code >=? 400)%Z; repeat constructor. apply Pbad.
  - intros; constructor.
  - intros; constructor.
  - intros; constructor.
  - intros; constructor.
  - constructor.
  - intros; constructor.
Qed.

Lemma checks_without_completion (s : S) :
  ~ In (OPrint completion_banner) (trace (run W checks s)).
Proof.
  intro H. apply in_stdout in H.
  assert (HP : Forall (fun t => startswith (nl ++ [9989%N]) t = false)
                 (stdout (trace (run W checks s))))
    by (apply checks_lines; reflexivity).
  rewrite Forall_forall in HP. apply HP in H. discriminate.
Qed.

(** [main] is [checks] and then the completion banner. *)
Lemma run_main_outcome (s : S) :
  run W main s
  = match outcome (run W checks s) with
    | inl e => run W checks s
    | inr _ =>
        match fst (w_encode W completion_banner (final (run W checks s)))
        with
        | None =>
            (trace (run W checks s) ++ [OPrint completion_banner], inr tt,
             snd (w_encode W completion_banner (final (run W checks s))))
        | Some e =>
            (trace (run W checks s) ++ [OPrintFailed completion_banner e],
             inl e,
             snd (w_encode W completion_banner (final (run W checks s))))
        end
    end.
Proof.
  rewrite run_main. unfold and_then.
  destruct (run W checks s) as [[tr [e | []]] s1]; [reflexivity |].
  project_results. rewrite run_print_encoded.
  destruct (fst (w_encode W completion_banner s1)); reflexivity.
Qed.

End Whole.

Section Cases.

Context {S : Type} (W : World S).

Lemma check_imports_returns (s : S) :
  outcome (run W check_imports s) = inr tt.
Proof. now rewrite run_check_imports. Qed.

(** The run of [main], by the first thing that raises. *)
Lemma run_main_cases (s : S) :
  run W main s
  = let r1 := run W check_imports s in
    let r2 := run W (check_urls (py ".")) (final r1) in
    match outcome r2 with
    | inl e =>
        (OPrint start_banner :: trace r1 ++ trace r2, inl e, final r2)
    | inr _ =>
        let o := w_open W manifest (py "r") None (final r2) in
        match fst o with
        | inl e =>
            (OPrint start_banner :: trace r1 ++ trace r2
               ++ [OPrint (nl ++ py "Checking dependencies...");
                   OOpen manifest (py "r") None (inl e)],
             inl e, snd o)
        | inr req =>
            let r3 := run W (for_each req check_line) (snd o) in
            match outcome r3 with
            | inl e =>
                (OPrint start_banner :: trace r1 ++ trace r2
                   ++ OPrint (nl ++ py "Checking dependencies...")
                   :: OOpen manifest (py "r") None (inr req) :: trace r3,
                 inl e, final r3)
            | inr _ =>
                let d := w_read_end W manifest (final r3) in
                match fst d with
                | Some e =>
                    (OPrint start_banner :: trace r1 ++ trace r2
                       ++ OPrint (nl ++ py "Checking dependencies...")
                       :: OOpen manifest (py "r") None (inr req)
                       :: trace r3 ++ [OReadEnd manifest (Some e)],
                     inl e, snd d)
                | None =>
                    let c := w_encode W completion_banner (snd d) in
                    match fst c with
                    | Some e =>
                        (OPrint start_banner :: trace r1 ++ trace r2
                           ++ OPrint (nl ++ py "Checking dependencies...")
                           :: OOpen manifest (py "r") None (inr req)
                           :: trace r3
                           ++ [OReadEnd manifest None;
                               OPrintFailed completion_banner e],
                         inl e, snd c)
                    | None =>
                        (OPrint start_banner :: trace r1 ++ trace r2
                           ++ OPrint (nl ++ py "Checking dependencies...")
                           :: OOpen manifest (py "r") None (inr req)
                           :: trace r3
                           ++ [OReadEnd manifest None;
                               OPrint completion_banner],
                         inr tt, snd c)
                    end
                end
            end
        end
    end.
Proof.
  rewrite run_main, run_checks. cbv zeta.
  pose proof (check_imports_returns s) as H1.
  destruct (run W check_imports s) as [[t1 o1] s1].
  project_results. subst o1. unfold and_then. project_results.
  destruct (run W (check_urls (py ".")) s1) as [[t2 [e | []]] s2];
    project_results; [reflexivity |].
  rewrite run_check_dependencies.
  destruct (w_open W manifest (py "r") None s2) as [[e | req] s3];
    project_results; [reflexivity |].
  unfold and_then.
  destruct (run W (for_each req check_line) s3) as [[t3 [e | []]] s4];
    project_results; [reflexivity |].
  rewrite run_read_end.
  destruct (w_read_end W manifest s4) as [[e |] s5]; project_results;
    [reflexivity |].
  rewrite run_print_encoded.
  destruct (w_encode W completion_banner s5) as [[e |] s6];
    project_results; f_equal; f_equal; cbn [app]; f_equal;
    rewrite <- !app_assoc; cbn [app]; rewrite <- !app_assoc; reflexivity.
Qed.

(** A raised manifest loop stops at an import that raised something else
    than an [ImportError]. *)
Lemma check_lines_raise_at_import (req : list str) (s : S) :
  holds (fun tr o =>
           match o with
           | None => True
           | Some e =>
               exists tr0 n,
                 tr = tr0 ++ [OImport n (inl e)] /\
                 is_ImportError e = false
           end)
        (run W (for_each req check_line) s).
Proof.
  apply holds_check_lines; try exact I; try (intros; exact I).
  - intros a b [e |] _ Hb; [| exact I].
    destruct Hb as [tr0 [n [-> He]]].
    exists (a ++ tr0), n. now rewrite app_assoc.
  - intros n e He. now exists [], n.
Qed.

Lemma check_imports_trace (s : S) (o : obs) :
  In o (trace (run W check_imports s)) ->
  (exists t, o = OPrint t) \/ (exists a r, o = OSubprocess a r).
Proof.
  rewrite run_check_imports. project_results.
  intros [<- | [<- | H]]; [left; eauto | right; eauto |].
  destruct (fst (w_subprocess W [py "flake8"; py "."] s));
    [destruct H as [<- | []]; left; eauto | destruct H].
Qed.

Lemma check_urls_read_only (base : str) (s : S) :
  forallb read_only (trace (run W (check_urls base) s)) = true.
Proof.
  rewrite run_check_urls.
  pose proof (scan_read_only W (fst (w_walk W base s))
                (snd (w_walk W base s))) as Hread.
  unfold holds in Hread. project_results. exact Hread.
Qed.

End Cases.

(** ** The package name of a manifest line *)

Lemma pkg_of_spec (line : str) :
  exists tail,
    strip line = pkg_of line ++ tail /\
    (tail = [] \/ startswith (py "==") tail = true) /\
    (forall a b, strip line = a ++ py "==" ++ b ->
                 List.length (pkg_of line) <= List.length a).
Proof.
  unfold pkg_of, split_sep.
  destruct (split_go_hd (py "==") (strip line) [])
    as [x [rest [Hhd [Hs [Hrest Hfirst]]]]].
  rewrite Hhd. exists rest. simpl rev. cbn [app]. auto.
Qed.

Lemma pkg_of_no_pin (line : str) :
  contains (py "==") (strip line) = false -> pkg_of line = strip line.
Proof.
  intro Hno. destruct (pkg_of_spec line) as [tail [Hs [[-> | Hpre] _]]].
  - now rewrite app_nil_r in Hs.
  - apply startswith_iff in Hpre. destruct Hpre as [b ->].
    assert (contains (py "==") (strip line) = true)
      by (apply contains_iff; now exists (pkg_of line), b).
    congruence.
Qed.

Lemma pkg_of_empty_iff (line : str) :
  pkg_of line = [] <->
  strip line = [] \/ startswith (py "==") (strip line) = true.
Proof.
  destruct (pkg_of_spec line) as [tail [Hs [Htail Hfirst]]]. split.
  - intro E. rewrite E in Hs. simpl in Hs. rewrite Hs.
    destruct Htail; auto.
  - intros [E | E].
    + rewrite E in Hs. symmetry in Hs. now apply app_eq_nil in Hs.
    + apply startswith_iff in E. destruct E as [b E].
      specialize (Hfirst [] b E). simpl in Hfirst.
      destruct (pkg_of line); [reflexivity | simpl in Hfirst; lia].
Qed.

(** C8: when flake8 cannot be launched the exception is caught and
    printed, and the lint runner returns; the scanner runs next in every
    case.  The return code of flake8 is dropped: the rest of the run,
    and with it the exit status of the script, is that of the remaining
    checks started from the state the lint call left. *)
Theorem lint_failure_contained {S : Type} (W : World S) (s : S) :
  let r := fst (w_subprocess W [py "flake8"; py "."] s) in
  let s1 := snd (w_subprocess W [py "flake8"; py "."] s) in
  let rest :=
    check_urls (py ".") ;; check_dependencies ;;
    print_encoded completion_banner in
  run W check_imports s
  = (OPrint (py "Checking imports...")
       :: OSubprocess [py "flake8"; py "."] r
       :: match r with
          | inl e =>
              [OPrint (py "Error running flake8:" ++ py " " ++ exc_msg e)]
          | inr _ => []
          end,
     inr tt, s1) /\
  run W main s
  = (OPrint start_banner
       :: trace (run W check_imports s) ++ trace (run W rest s1),
     outcome (run W rest s1), final (run W rest s1)) /\
  exit_status (outcome (run W main s))
  = exit_status (outcome (run W rest s1)).
Proof.
  intros r s1 rest.
  assert (Hmain : run W main s
                  = (OPrint start_banner
                       :: trace (run W check_imports s)
                       ++ trace (run W rest s1),
                     outcome (run W rest s1), final (run W rest s1))).
  { unfold main. rewrite run_print_then, run_bind. unfold and_then.
    rewrite run_check_imports. reflexivity. }
  split; [apply run_check_imports | split; [exact Hmain |]].
  now rewrite Hmain.
Qed.

(** C10: only "==" separates a version pin.  A line without "==" is
    used whole, once stripped, as the module name: for [name>=1.0] the
    import is attempted with [name>=1.0].  A line whose stripped text is
    empty or begins with "==" has an empty name, and is passed over
    without an import and without output; blank lines are such lines. *)
Theorem only_double_equals_splits {S : Type} (W : World S) (s : S) :
  (forall line,
      contains (py "==") (strip line) = false ->
      pkg_of line = strip line) /\
  (forall line,
      contains (py "==") (strip line) = false ->
      strip line <> [] ->
      run W (check_line line) s
      = (OImport (strip line) (fst (w_import W (strip line) s))
           :: List.map OPrint
                (missing_line (strip line)
                   (fst (w_import W (strip line) s))),
         after_import (fst (w_import W (strip line) s)),
         snd (w_import W (strip line) s))) /\
  pkg_of (py "name>=1.0" ++ nl) = py "name>=1.0" /\
  (forall line,
      pkg_of line = [] <->
      strip line = [] \/ startswith (py "==") (strip line) = true) /\
  (forall line, forallb isspace line = true -> pkg_of line = []) /\
  (forall line,
      pkg_of line = [] -> run W (check_line line) s = ([], inr tt, s)).
Proof.
  split; [| split; [| split; [| split; [| split]]]].
  - exact pkg_of_no_pin.
  - intros line Hno Hne.
    rewrite run_check_line, (pkg_of_no_pin line Hno).
    destruct (strip line); [contradiction | reflexivity].
  - reflexivity.
  - exact pkg_of_empty_iff.
  - intros line H. apply pkg_of_empty_iff. left. now apply strip_blank.
  - intros line H. now rewrite run_check_line, H.
Qed.

(** C10 on the line [name>=1.0]. *)
Lemma only_double_equals_splits_witness :
  run sample_world (check_line (py "name>=1.0" ++ nl)) tt
  = ([OImport (py "name>=1.0") no_such_module;
      OPrint (py "[MISSING] name>=1.0")],
     inr tt, tt).
Proof.
  destruct (only_double_equals_splits sample_world tt) as [_ [H _]].
  apply (H (py "name>=1.0" ++ nl)); [reflexivity | discriminate].
Defined.

(** C4, counterexample: the line [==1.0] is not blank, and the text
    before its "==" is empty; no import is attempted for it. *)
Lemma pin_only_line_not_imported :
  forallb isspace (py "==1.0" ++ nl) = false /\
  pkg_of (py "==1.0" ++ nl) = [] /\
  run sample_world (check_line (py "==1.0" ++ nl)) tt = ([], inr tt, tt).
Proof. split; [| split]; reflexivity. Qed.

(** C4, amended: for every manifest line whose stripped text before the
    first "==" is not empty, that text is the package name and an import
    of a module of that name is attempted.  When the import raises an
    [ImportError], exactly one [[MISSING] <name>] line is printed and the
    checker goes on with the next line; when the import succeeds nothing
    is printed. *)
Theorem manifest_line_checked {S : Type} (W : World S) (s : S)
    (line : str) (rest : list str) :
  pkg_of line <> [] ->
  (exists tail,
      strip line = pkg_of line ++ tail /\
      (tail = [] \/ startswith (py "==") tail = true) /\
      (forall a b, strip line = a ++ py "==" ++ b ->
                   List.length (pkg_of line) <= List.length a)) /\
  (forall e,
      fst (w_import W (pkg_of line) s) = inl e ->
      is_ImportError e = true ->
      run W (for_each (line :: rest) check_line) s
      = seen (OImport (pkg_of line) (inl e))
          (seen (OPrint (py "[MISSING] " ++ pkg_of line))
             (run W (for_each rest check_line)
                (snd (w_import W (pkg_of line) s))))) /\
  (fst (w_import W (pkg_of line) s) = inr tt ->
   run W (for_each (line :: rest) check_line) s
   = seen (OImport (pkg_of line) (inr tt))
       (run W (for_each rest check_line)
          (snd (w_import W (pkg_of line) s)))).
Proof.
  intro Hne. split; [apply pkg_of_spec |].
  assert (Hrun : run W (check_line line) s
                 = (OImport (pkg_of line) (fst (w_import W (pkg_of line) s))
                      :: List.map OPrint
                           (missing_line (pkg_of line)
                              (fst (w_import W (pkg_of line) s))),
                    after_import (fst (w_import W (pkg_of line) s)),
                    snd (w_import W (pkg_of line) s))).
  { rewrite run_check_line. destruct (pkg_of line); [contradiction |].
    reflexivity. }
  split.
  - intros e He Himp. rewrite run_for_each_cons, Hrun, He.
    unfold and_then. simpl. rewrite Himp. reflexivity.
  - intros He. rewrite run_for_each_cons, Hrun, He. reflexivity.
Qed.

(** C4, amended, on a manifest of two lines. *)
Lemma manifest_line_checked_witness :
  run sample_world
    (for_each [py "not_a_real_pkg_xyz" ++ nl; py "requests==2.31.0" ++ nl]
       check_line) tt
  = ([OImport (py "not_a_real_pkg_xyz") no_such_module;
      OPrint (py "[MISSING] not_a_real_pkg_xyz");
      OImport (py "requests") (inr tt)],
     inr tt, tt).
Proof.
  destruct (manifest_line_checked sample_world tt
              (py "not_a_real_pkg_xyz" ++ nl)
              [py "requests==2.31.0" ++ nl]) as [_ [H _]];
    [discriminate |].
  exact (H (Exc ModuleNotFoundError (py "No module named that"))
           eq_refl eq_refl).
Defined.

(** ** Claims about the whole run *)

Section Console.

Context {S : Type} (W : World S).
Variable P : str -> Prop.

Lemma check_imports_lines (s : S) :
  P (py "Checking imports...") ->
  (forall msg, P (py "Error running flake8:" ++ py " " ++ msg)) ->
  Forall P (stdout (trace (run W check_imports s))).
Proof.
  intros Phdr Plint. rewrite run_check_imports. project_results.
  cbn [stdout]. constructor; [exact Phdr |].
  destruct (fst (w_subprocess W [py "flake8"; py "."] s));
    repeat constructor. apply Plint.
Qed.

Lemma check_urls_lines (base : str) (s : S) :
  P (nl ++ py "Checking external links...") ->
  (forall url code,
      P (py "[BAD LINK] " ++ url ++ py " -> " ++ str_of_int code)) ->
  (forall url msg, P (py "[ERROR] " ++ url ++ py " -> " ++ msg)) ->
  Forall P (stdout (trace (run W (check_urls base) s))).
Proof.
  intros Phdr Pbad Perr. rewrite run_check_urls.
  destruct (scan_reports W (fst (w_walk W base s)) (snd (w_walk W base s)))
    as [Hout _].
  project_results. cbn [stdout]. rewrite Hout. clear Hout.
  constructor; [exact Phdr |].
  induction (probes _) as [| [[url t] r] ps IH]; [constructor |].
  cbn [flat_map]. apply Forall_app. split; [| exact IH].
  destruct r as [e | code]; simpl.
  - repeat constructor. apply Perr.
  - destruct (code >=? 400)%Z; repeat constructor. apply Pbad.
Qed.

End Console.

(** C9: the dependency checker catches [ImportError] and nothing else.
    When the import of a listed module raises another exception, the
    manifest loop ends there with that exception: the remaining lines
    are not looked at.  In a run of the script such an import is the
    last thing that happens: the exception reaches the top level and the
    completion banner is not printed. *)
Theorem only_import_error_caught {S : Type} (W : World S) (s : S) :
  (forall line rest e,
      pkg_of line <> [] ->
      fst (w_import W (pkg_of line) s) = inl e ->
      is_ImportError e = false ->
      run W (for_each (line :: rest) check_line) s
      = ([OImport (pkg_of line) (inl e)], inl e,
         snd (w_import W (pkg_of line) s))) /\
  (forall n e,
      In (OImport n (inl e)) (trace (run W main s)) ->
      is_ImportError e = false ->
      outcome (run W main s) = inl e /\
      (exists tr0, trace (run W main s) = tr0 ++ [OImport n (inl e)]) /\
      ~ In (OPrint completion_banner) (trace (run W main s))).
Proof.
  split.
  - intros line rest e Hne Himp He.
    rewrite run_for_each_cons, run_check_line.
    destruct (pkg_of line) as [| c pkg]; [contradiction |].
    rewrite Himp. unfold and_then. simpl. rewrite He. reflexivity.
  - intros n e Hin He.
    pose proof (checks_bad_import_last W s) as Hlast.
    pose proof (checks_without_completion W s) as Hnone.
    rewrite run_main_outcome in *. unfold holds in Hlast.
    destruct (run W checks s) as [[tr [e' | []]] s1]; project_results.
    + destruct (Hlast n e Hin He) as [Ho Htr].
      injection Ho as ->. auto.
    + exfalso.
      assert (Hin' : In (OImport n (inl e)) tr).
      { destruct (fst (w_encode W completion_banner s1));
          project_results; apply in_app_or in Hin;
          destruct Hin as [Hin | [Hin | []]];
          solve [exact Hin | discriminate]. }
      destruct (Hlast n e Hin' He) as [Ho _]. discriminate.
Qed.

(** C9 on a manifest whose first module raises at import time. *)
Lemma only_import_error_caught_witness :
  run boom_world
    (for_each [py "boom" ++ nl; py "not_a_real_pkg_xyz" ++ nl] check_line) tt
  = ([OImport (py "boom")
        (inl (Exc RuntimeError (py "boom at import time")))],
     inl (Exc RuntimeError (py "boom at import time")), tt).
Proof.
  destruct (only_import_error_caught boom_world tt) as [H _].
  apply (H (py "boom" ++ nl) [py "not_a_real_pkg_xyz" ++ nl]
           (Exc RuntimeError (py "boom at import time")));
    [discriminate | reflexivity | reflexivity].
Defined.

(** C2, counterexample: the manifest is there and is read, a module it
    names raises at import time, and the run ends with that exception. *)
Lemma import_time_error_stops_run :
  run boom_world check_dependencies tt
  = ([OPrint (nl ++ py "Checking dependencies...");
      OOpen manifest (py "r") None
        (inr [py "boom" ++ nl; py "not_a_real_pkg_xyz" ++ nl]);
      OImport (py "boom")
        (inl (Exc RuntimeError (py "boom at import time")))],
     inl (Exc RuntimeError (py "boom at import time")), tt) /\
  outcome (run boom_world main tt)
  = inl (Exc RuntimeError (py "boom at import time")).
Proof. split; vm_compute; reflexivity. Qed.

(** C2, amended: when the scanner has run through and the manifest
    cannot be opened, the exception of [open] ends the run: after the
    output of the lint runner and of the scanner and the header of the
    dependency check, with no [[MISSING]] line and no completion banner.
    A run ends with an exception only at a failed [open] of the manifest
    (missing or not) or of a scanned file, at a failed read of the
    manifest, at an import that raises something else than an
    [ImportError], or at a console that cannot encode the completion
    banner; a failed probe, a failed launch of flake8 and an
    [ImportError] never end it. *)
Theorem missing_manifest_stops_run {S : Type} (W : World S) (s : S) :
  let r1 := run W check_imports s in
  let r2 := run W (check_urls (py ".")) (final r1) in
  let o := w_open W manifest (py "r") None (final r2) in
  (forall e,
      outcome r2 = inr tt ->
      fst o = inl e ->
      run W main s
      = (OPrint start_banner :: trace r1 ++ trace r2
           ++ [OPrint (nl ++ py "Checking dependencies...");
               OOpen manifest (py "r") None (inl e)],
         inl e, snd o) /\
      Forall (fun t => startswith (py "[MISSING]") t = false)
        (stdout (trace (run W main s))) /\
      ~ In (OPrint completion_banner) (trace (run W main s))) /\
  (forall e,
      outcome (run W main s) = inl e ->
      exists tr0 last,
        trace (run W main s) = tr0 ++ [last] /\ fatal last e).
Proof.
  intros r1 r2 o. split.
  - intros e H2 Ho.
    assert (Hrun : run W main s
                   = (OPrint start_banner :: trace r1 ++ trace r2
                        ++ [OPrint (nl ++ py "Checking dependencies...");
                            OOpen manifest (py "r") None (inl e)],
                      inl e, snd o)).
    { rewrite run_main_cases. cbv zeta. fold r1. fold r2. fold o.
      now rewrite H2, Ho. }
    split; [exact Hrun | split].
    + rewrite Hrun. unfold trace at 1. cbn [fst stdout].
      rewrite !stdout_app. constructor; [reflexivity |].
      apply Forall_app. split.
      { apply check_imports_lines; reflexivity. }
      apply Forall_app. split.
      { apply check_urls_lines; reflexivity. }
      repeat constructor.
    + intro Hin. apply in_stdout in Hin. revert Hin.
      rewrite Hrun. unfold trace at 1. cbn [fst stdout].
      rewrite !stdout_app. intro Hin.
      assert (HP : Forall
                     (fun t => startswith (nl ++ [9989%N]) t = false)
                     (start_banner :: stdout (trace r1)
                        ++ stdout (trace r2)
                        ++ stdout
                             [OPrint (nl ++ py "Checking dependencies...");
                              OOpen manifest (py "r") None (inl e)])).
      { constructor; [reflexivity |].
        apply Forall_app. split.
        { apply check_imports_lines; reflexivity. }
        apply Forall_app. split.
        { apply check_urls_lines; reflexivity. }
        repeat constructor. }
      rewrite Forall_forall in HP. apply HP in Hin. discriminate.
  - intros e He.
    pose proof (checks_stop_at_fatal W s) as Hstop.
    rewrite run_main_outcome in *. unfold holds in Hstop.
    destruct (run W checks s) as [[tr [e' | []]] s1]; project_results.
    + injection He as ->. exact Hstop.
    + destruct (fst (w_encode W completion_banner s1)) as [e' |];
        project_results; [| discriminate].
      injection He as ->.
      exists tr, (OPrintFailed completion_banner e).
      split; [reflexivity |]. do 4 right. reflexivity.
Qed.

(** C2, amended, in a world without manifest. *)
Lemma missing_manifest_stops_run_witness :
  outcome (run bare_world main tt)
  = inl (Exc FileNotFoundError (py "No such file or directory")) /\
  ~ In (OPrint completion_banner) (trace (run bare_world main tt)).
Proof.
  destruct (missing_manifest_stops_run bare_world tt) as [H _].
  destruct (H (Exc FileNotFoundError (py "No such file or directory")))
    as [Hrun [_ Hnone]]; [reflexivity | reflexivity |].
  split; [now rewrite Hrun | exact Hnone].
Defined.

(** C6, counterexample: the manifest is opened and read, yet the run
    ends at the import of a module that raises at import time: with
    exit status 1, and without the completion banner. *)
Lemma import_time_error_skips_banner :
  In (OOpen manifest (py "r") None
        (inr [py "boom" ++ nl; py "not_a_real_pkg_xyz" ++ nl]))
     (trace (run boom_world main tt)) /\
  last (trace (run boom_world main tt)) (OPrint [])
  = OImport (py "boom") (inl (Exc RuntimeError (py "boom at import time"))) /\
  stdout (trace (run boom_world main tt))
  = [ start_banner;
      py "Checking imports...";
      nl ++ py "Checking external links...";
      py "[BAD LINK] http://gone.example/x -> 404";
      py "[ERROR] http://slow.example -> timed out";
      nl ++ py "Checking dependencies..." ] /\
  exit_status (outcome (run boom_world main tt)) = 1%Z.
Proof.
  split; [| split; [| split]]; vm_compute; try reflexivity.
  repeat (try (left; reflexivity); right).
Qed.

(** C6, amended: the entry point prints the start banner first and runs
    the lint runner, the link scanner and the dependency checker in that
    order, each only if the one before returned.  Whenever the manifest
    open succeeds, the read of the manifest does not fail, no import
    raises anything else than an [ImportError] and the console can
    encode the completion banner, the banner is printed last and the
    exit status is 0, whatever the probes and imports reported. *)
Theorem entry_point_order {S : Type} (W : World S) (s : S) :
  run W main s
  = seen (OPrint start_banner)
      (and_then (run W check_imports s) (fun _ s1 =>
         and_then (run W (check_urls (py ".")) s1) (fun _ s2 =>
           and_then (run W check_dependencies s2) (fun _ s3 =>
             run W (print_encoded completion_banner) s3)))) /\
  hd_error (trace (run W main s)) = Some (OPrint start_banner) /\
  (forall req,
      In (OOpen manifest (py "r") None (inr req)) (trace (run W main s)) ->
      (forall e,
          ~ In (OReadEnd manifest (Some e)) (trace (run W main s))) ->
      (forall n e,
          In (OImport n (inl e)) (trace (run W main s)) ->
          is_ImportError e = true) ->
      (forall e,
          ~ In (OPrintFailed completion_banner e) (trace (run W main s))) ->
      (exists tr0,
          trace (run W main s) = tr0 ++ [OPrint completion_banner]) /\
      exit_status (outcome (run W main s)) = 0%Z).
Proof.
  assert (Horder : run W main s
                   = seen (OPrint start_banner)
                       (and_then (run W check_imports s) (fun _ s1 =>
                          and_then (run W (check_urls (py ".")) s1)
                            (fun _ s2 =>
                               and_then (run W check_dependencies s2)
                                 (fun _ s3 =>
                                    run W (print_encoded completion_banner)
                                      s3))))).
  { unfold main. rewrite run_print_then. f_equal.
    rewrite run_bind. apply and_then_ext. intros _ s1.
    rewrite run_bind. apply and_then_ext. intros _ s2.
    now rewrite run_bind. }
  split; [exact Horder | split].
  { now rewrite Horder. }
  clear Horder. intros req Hopen Hread Himports Hconsole.
  pose proof (check_imports_trace W s) as H1.
  pose proof (check_urls_read_only W (py ".")
                (final (run W check_imports s))) as H2.
  rewrite forallb_forall in H2.
  rewrite run_main_cases in *. cbv zeta in *.
  destruct (run W check_imports s) as [[t1 o1] s1]. project_results.
  destruct (run W (check_urls (py ".")) s1) as [[t2 [e | []]] s2];
    project_results.
  - exfalso. destruct Hopen as [Hopen | Hopen]; [discriminate |].
    apply in_app_or in Hopen. destruct Hopen as [Hopen | Hopen].
    + apply H1 in Hopen. destruct Hopen as [[t E] | [a [r E]]];
        discriminate.
    + apply H2 in Hopen. discriminate.
  - destruct (w_open W manifest (py "r") None s2) as [[e | req'] s3];
      project_results.
    + exfalso. destruct Hopen as [Hopen | Hopen]; [discriminate |].
      apply in_app_or in Hopen. destruct Hopen as [Hopen | Hopen].
      * apply H1 in Hopen. destruct Hopen as [[t E] | [a [r E]]];
          discriminate.
      * apply in_app_or in Hopen. destruct Hopen as [Hopen | Hopen].
        -- apply H2 in Hopen. discriminate.
        -- destruct Hopen as [E | [E | []]]; discriminate.
    + pose proof (check_lines_raise_at_import W req' s3) as H3.
      unfold holds in H3.
      destruct (run W (for_each req' check_line) s3)
        as [[t3 [e | []]] s4]; project_results.
      * exfalso. destruct H3 as [tr0 [n [-> He]]].
        assert (Hin : In (OImport n (inl e))
                        (OPrint start_banner :: t1 ++ t2
                           ++ OPrint (nl ++ py "Checking dependencies...")
                           :: OOpen manifest (py "r") None (inr req')
                           :: tr0 ++ [OImport n (inl e)])).
        { right. apply in_or_app. right. apply in_or_app. right.
          right. right. apply in_or_app. right. now left. }
        apply Himports in Hin. congruence.
      * destruct (w_read_end W manifest s4) as [[e |] s5];
          project_results.
        { exfalso. apply (Hread e). right.
          apply in_or_app. right. apply in_or_app. right.
          right. right. apply in_or_app. right. now left. }
        destruct (w_encode W completion_banner s5) as [[e |] s6];
          project_results.
        { exfalso. apply (Hconsole e). right.
          apply in_or_app. right. apply in_or_app. right.
          right. right. apply in_or_app. right. right. now left. }
        split; [| reflexivity].
        exists (OPrint start_banner :: t1 ++ t2
                  ++ OPrint (nl ++ py "Checking dependencies...")
                  :: OOpen manifest (py "r") None (inr req')
                  :: t3 ++ [OReadEnd manifest None]).
        cbn [app]. f_equal. rewrite <- !app_assoc. cbn [app].
        rewrite <- !app_assoc. reflexivity.
Qed.

(** C6, amended, on the sample world. *)
Lemma entry_point_order_witness :
  (exists tr0,
      trace (run sample_world main tt) = tr0 ++ [OPrint completion_banner]) /\
  exit_status (outcome (run sample_world main tt)) = 0%Z.
Proof.
  destruct (entry_point_order sample_world tt) as [_ [_ H]].
  apply (H [py "requests==2.31.0" ++ nl; nl; py "not_a_real_pkg_xyz" ++ nl]).
  - vm_compute. repeat (try (left; reflexivity); right).
  - intros e Hin. vm_compute in Hin.
    repeat (destruct Hin as [Hin | Hin]; [discriminate |]).
    destruct Hin.
  - intros n e Hin. vm_compute in Hin.
    repeat (destruct Hin as [Hin | Hin];
            [try discriminate; injection Hin as _ <-; reflexivity |]).
    destruct Hin.
  - intros e Hin. vm_compute in Hin.
    repeat (destruct Hin as [Hin | Hin]; [discriminate |]).
    destruct Hin.
Defined.

(** * Further properties of the script *)

(** ** The link scanner *)

Lemma lines_read_app (a b : list obs) :
  lines_read (a ++ b) = lines_read a ++ lines_read b.
Proof.
  induction a as [| o a IH]; [reflexivity |].
  destruct o as [| | | p m x [e | lines] | | | |]; simpl; rewrite ?IH;
    try reflexivity.
  now rewrite app_assoc.
Qed.

Lemma lines_read_prints (l : list str) : lines_read (List.map OPrint l) = [].
Proof. induction l as [| t l IH]; simpl; [| rewrite IH]; reflexivity. Qed.

Section ScannerExtras.

Context {S : Type} (W : World S).

Lemma scan_lines_read_nothing (lines : list str) (s : S) :
  lines_read (trace (run W (for_each lines scan_line) s)) = [].
Proof.
  apply (holds_for_each W (fun tr _ => lines_read tr = [])).
  - reflexivity.
  - intros a b _ Ha Hb. now rewrite lines_read_app, Ha, Hb.
  - intros line s0. apply holds_scan_line.
    + reflexivity.
    + intros a b _ Ha Hb. now rewrite lines_read_app, Ha, Hb.
    + intros url r. simpl. apply lines_read_prints.
Qed.

Lemma scan_line_returns (line : str) (s : S) :
  outcome (run W (scan_line line) s) = inr tt.
Proof.
  assert (H : holds (fun _ o => o = None) (run W (scan_line line) s)).
  { apply holds_scan_line;
      [reflexivity | now intros a b o _ Hb | reflexivity]. }
  unfold holds in H.
  destruct (outcome (run W (scan_line line) s)) as [e | []];
    [discriminate | reflexivity].
Qed.

(** The probes made for the lines of one file. *)
Lemma probes_scan_lines (lines : list str) (s : S) :
  List.map (fun p : str * Z * (exc + Z) => fst (fst p))
    (probes (trace (run W (for_each lines scan_line) s)))
  = flat_map candidates lines.
Proof.
  revert s. induction lines as [| line lines IH]; intro s; [reflexivity |].
  rewrite run_for_each_cons. unfold and_then.
  pose proof (probes_scan_line W line s) as Hline.
  pose proof (scan_line_returns line s) as Hret.
  destruct (run W (scan_line line) s) as [[tr o] s1]. project_results.
  subst o. cbn [fst snd flat_map].
  rewrite probes_app, map_app, Hline. f_equal.
  apply IH.
Qed.

Lemma probes_scan_file (root f : str) (s : S) :
  holds (fun tr _ =>
           List.map (fun p : str * Z * (exc + Z) => fst (fst p)) (probes tr)
           = flat_map candidates (lines_read tr))
        (run W (scan_file root f) s).
Proof.
  unfold scan_file, holds.
  destruct (endswith_any extensions f); [| reflexivity].
  unfold open_. cbn [bind run].
  destruct (w_open W (path_join root f) (py "r") (Some (py "ignore")) s)
    as [[e | lines] s1]; cbn [returned bind run]; [reflexivity |].
  pose proof (probes_scan_lines lines s1) as Hp.
  pose proof (scan_lines_read_nothing lines s1) as Hl.
  project_results. cbn [probes lines_read].
  now rewrite Hl, app_nil_r, Hp.
Qed.

Lemma probes_scan_tree (tree : list walk_entry) (s : S) :
  holds (fun tr _ =>
           List.map (fun p : str * Z * (exc + Z) => fst (fst p)) (probes tr)
           = flat_map candidates (lines_read tr))
        (run W (for_each tree scan_dir) s).
Proof.
  assert (Happ : forall a b (o : option exc),
             List.map (fun p : str * Z * (exc + Z) => fst (fst p)) (probes a)
             = flat_map candidates (lines_read a) ->
             List.map (fun p : str * Z * (exc + Z) => fst (fst p)) (probes b)
             = flat_map candidates (lines_read b) ->
             List.map (fun p : str * Z * (exc + Z) => fst (fst p))
               (probes (a ++ b))
             = flat_map candidates (lines_read (a ++ b))).
  { intros a b _ Ha Hb.
    now rewrite probes_app, lines_read_app, map_app, flat_map_app, Ha, Hb. }
  apply holds_for_each; [reflexivity | exact Happ |].
  intros [[root dirs] files] s0.
  apply holds_for_each; [reflexivity | exact Happ |].
  intros f s1. apply probes_scan_file.
Qed.

(** A directory without allow-listed names is passed over. *)
Lemma run_scan_files_none (root : str) (files : list str) (s : S) :
  Forall (fun f => endswith_any extensions f = false) files ->
  run W (for_each files (scan_file root)) s = ([], inr tt, s).
Proof.
  induction 1 as [| f files Hf _ IH]; [reflexivity |].
  rewrite run_for_each_cons. unfold scan_file at 1. rewrite Hf.
  unfold and_then. cbn [run]. project_results.
  rewrite IH. reflexivity.
Qed.

Lemma run_scan_tree_none (tree : list walk_entry) (s : S) :
  Forall (fun entry : walk_entry =>
            Forall (fun f => endswith_any extensions f = false) (snd entry))
         tree ->
  run W (for_each tree scan_dir) s = ([], inr tt, s).
Proof.
  induction 1 as [| [[root dirs] files] tree Hfiles _ IH]; [reflexivity |].
  rewrite run_for_each_cons. cbn [scan_dir]. cbn [snd] in Hfiles.
  rewrite (@run_scan_files_none root files s Hfiles).
  unfold and_then. project_results. rewrite IH. reflexivity.
Qed.

End ScannerExtras.

(** Every token of [split] is non-empty and free of whitespace. *)
Lemma split_ws_tokens (s cur t : str) :
  (forall c, In c cur -> isspace c = false) ->
  In t (split_ws cur s) ->
  t <> [] /\ (forall c, In c t -> isspace c = false).
Proof.
  revert cur. induction s as [| x s IH]; intros cur Hcur H; simpl in H.
  - destruct cur as [| y cur]; [contradiction |].
    destruct H as [<- | []]. split.
    + intro E. apply (f_equal (@List.length N)) in E.
      rewrite length_rev in E. discriminate.
    + intros c Hc. apply in_rev in Hc. now apply Hcur.
  - destruct (isspace x) eqn:Hx.
    + assert (Hnil : forall c : N, In c [] -> isspace c = false)
        by (intros c []).
      destruct cur as [| y cur]; [exact (IH [] Hnil H) |].
      destruct H as [<- | H]; [| exact (IH [] Hnil H)].
      split.
      * intro E. apply (f_equal (@List.length N)) in E.
        rewrite length_rev in E. discriminate.
      * intros c Hc. apply in_rev in Hc. now apply Hcur.
    + apply (IH (x :: cur)); [| exact H].
      intros c [<- | Hc]; [exact Hx | now apply Hcur].
Qed.

(** X1: over a whole scan, the URLs probed are the candidates of the
    lines of the files that could be opened, file after file and line
    after line: nothing else is requested, and a URL written twice is
    requested twice. *)
Theorem scan_probes_lines_read {S : Type} (W : World S) (s : S)
    (base : str) :
  List.map (fun p : str * Z * (exc + Z) => fst (fst p))
    (probes (trace (run W (check_urls base) s)))
  = flat_map candidates (lines_read (trace (run W (check_urls base) s))).
Proof.
  rewrite run_check_urls.
  pose proof (probes_scan_tree W (fst (w_walk W base s))
                (snd (w_walk W base s))) as H.
  unfold holds in H. project_results. exact H.
Qed.

(** X2: a URL candidate of a line is a piece of that line that begins
    with "http", has at least four characters and contains no whitespace
    character. *)
Theorem candidate_shape (line url : str) :
  In url (candidates line) ->
  startswith (py "http") url = true /\
  4 <= List.length url /\
  (forall c, In c url -> isspace c = false) /\
  (exists a b, line = a ++ url ++ b).
Proof.
  unfold candidates, split. intro H. apply filter_In in H.
  destruct H as [Hin Hpre].
  destruct (split_ws_tokens line [] url) as [_ Hns];
    [intros c [] | exact Hin |].
  split; [exact Hpre | split; [| split; [exact Hns |]]].
  - apply startswith_iff in Hpre. destruct Hpre as [rest ->].
    rewrite length_app. simpl. lia.
  - apply split_ws_piece in Hin. exact Hin.
Qed.

(** X2 on a line with one link and a trailing comma. *)
Lemma candidate_shape_witness :
  startswith (py "http") (py "https://b.io/x,") = true /\
  4 <= List.length (py "https://b.io/x,") /\
  (forall c, In c (py "https://b.io/x,") -> isspace c = false) /\
  (exists a b, py "see https://b.io/x, now" ++ nl
               = a ++ py "https://b.io/x," ++ b).
Proof.
  apply (candidate_shape (py "see https://b.io/x, now" ++ nl)
           (py "https://b.io/x,")).
  left. reflexivity.
Defined.

(** X3: when no file name of the walked tree ends in an allow-listed
    extension, the scanner prints its header, lists the tree and
    returns: it opens nothing and probes nothing. *)
Theorem scan_without_targets {S : Type} (W : World S) (s : S)
    (base : str) :
  Forall (fun entry : walk_entry =>
            Forall (fun f => endswith_any extensions f = false) (snd entry))
         (fst (w_walk W base s)) ->
  run W (check_urls base) s
  = ([OPrint (nl ++ py "Checking external links...");
      OWalk base (fst (w_walk W base s))],
     inr tt, snd (w_walk W base s)).
Proof.
  intro H. rewrite run_check_urls, (run_scan_tree_none W _ _ H).
  reflexivity.
Qed.

(** X3 on a tree of images and data files. *)
Lemma scan_without_targets_witness :
  run (static_world (inr 0%Z)
         [(py ".", [py "img"], [py "data.json"; py "Makefile"]);
          (py "./img", [], [py "logo.png"; py "notes.txt.bak"])]
         (fun _ => no_such_file)
         (fun _ => inr 200%Z)
         (fun _ => no_such_module))
      (check_urls (py ".")) tt
  = ([OPrint (nl ++ py "Checking external links...");
      OWalk (py ".")
        [(py ".", [py "img"], [py "data.json"; py "Makefile"]);
         (py "./img", [], [py "logo.png"; py "notes.txt.bak"])]],
     inr tt, tt).
Proof.
  apply (scan_without_targets
           (static_world (inr 0%Z)
              [(py ".", [py "img"], [py "data.json"; py "Makefile"]);
               (py "./img", [], [py "logo.png"; py "notes.txt.bak"])]
              (fun _ => no_such_file)
              (fun _ => inr 200%Z)
              (fun _ => no_such_module)) tt (py ".")).
  repeat constructor.
Defined.

(** ** The dependency checker *)

Lemma import_results_app (a b : list obs) :
  import_results (a ++ b) = import_results a ++ import_results b.
Proof.
  induction a as [| [] a IH]; simpl; rewrite ?IH; reflexivity.
Qed.

Lemma import_results_prints (l : list str) :
  import_results (List.map OPrint l) = [].
Proof. induction l as [| t l IH]; simpl; [| rewrite IH]; reflexivity. Qed.

Lemma launched_app (a b : list obs) :
  launched (a ++ b) = launched a ++ launched b.
Proof.
  induction a as [| [] a IH]; simpl; rewrite ?IH; reflexivity.
Qed.

Lemma walked_app (a b : list obs) : walked (a ++ b) = walked a ++ walked b.
Proof.
  induction a as [| [] a IH]; simpl; rewrite ?IH; reflexivity.
Qed.

Lemma launched_prints (l : list str) : launched (List.map OPrint l) = [].
Proof. induction l as [| t l IH]; simpl; [| rewrite IH]; reflexivity. Qed.

Lemma walked_prints (l : list str) : walked (List.map OPrint l) = [].
Proof. induction l as [| t l IH]; simpl; [| rewrite IH]; reflexivity. Qed.

Lemma lstrip_head (s : str) (c : N) (rest : str) :
  lstrip s = c :: rest -> isspace c = false.
Proof.
  induction s as [| x s IH]; simpl; [discriminate |].
  destruct (isspace x) eqn:Hx; [exact IH |].
  intro E. injection E as <- _. exact Hx.
Qed.

Lemma lstrip_suffix (s : str) : exists p, s = p ++ lstrip s.
Proof.
  induction s as [| x s [p IH]]; simpl; [now exists [] |].
  destruct (isspace x); [| now exists []].
  exists (x :: p). simpl. now rewrite <- IH.
Qed.

(** [strip] cuts a tail off the left-stripped text. *)
Lemma strip_prefix (s : str) : exists t, lstrip s = strip s ++ t.
Proof.
  unfold strip. destruct (lstrip_suffix (rev (lstrip s))) as [p Hp].
  exists (rev p). rewrite <- rev_app_distr, <- Hp.
  now rewrite rev_involutive.
Qed.

Lemma lstrip_blank_app (a s : str) :
  forallb isspace a = true -> lstrip (a ++ s) = lstrip s.
Proof.
  induction a as [| x a IH]; simpl; [reflexivity |].
  intro H. apply andb_true_iff in H. destruct H as [-> H]. now apply IH.
Qed.

Lemma lstrip_app (s b : str) :
  lstrip s <> [] -> lstrip (s ++ b) = lstrip s ++ b.
Proof.
  induction s as [| x s IH]; simpl; [contradiction |].
  destruct (isspace x); [exact IH | reflexivity].
Qed.

Lemma lstrip_nil_blank (s : str) :
  lstrip s = [] -> forallb isspace s = true.
Proof.
  induction s as [| x s IH]; simpl; [reflexivity |].
  destruct (isspace x); [exact IH | discriminate].
Qed.

Lemma strip_margins (a s b : str) :
  forallb isspace a = true -> forallb isspace b = true ->
  strip (a ++ s ++ b) = strip s.
Proof.
  intros Ha Hb. unfold strip. rewrite (lstrip_blank_app a _ Ha).
  destruct (lstrip s) as [| c r] eqn:E.
  - apply lstrip_nil_blank in E.
    assert (Hsb : forallb isspace (s ++ b) = true)
      by (rewrite forallb_app, E, Hb; reflexivity).
    now rewrite (lstrip_blank _ Hsb).
  - rewrite lstrip_app by (rewrite E; discriminate).
    rewrite E, rev_app_distr.
    rewrite lstrip_blank_app; [reflexivity |].
    rewrite forallb_forall in *. intros x Hx. apply Hb.
    now apply in_rev.
Qed.

Section DependencyExtras.

Context {S : Type} (W : World S).

(** The names imported by the manifest loop. *)
Lemma check_lines_names (req : list str) (s : S) :
  exists rest,
    manifest_names req
    = List.map fst
        (import_results (trace (run W (for_each req check_line) s)))
      ++ rest /\
    (outcome (run W (for_each req check_line) s) = inr tt -> rest = []).
Proof.
  revert s. induction req as [| line req IH]; intro s.
  - exists []. split; reflexivity.
  - rewrite run_for_each_cons, run_check_line.
    unfold manifest_names. cbn [List.map filter].
    fold (manifest_names req).
    destruct (pkg_of line) as [| c pkg].
    + unfold and_then. project_results. cbn [app is_empty negb].
      destruct (IH s) as [rest [Heq Hall]]. exists rest.
      project_results. split; assumption.
    + cbn [is_empty negb]. unfold and_then. project_results.
      destruct (after_import (fst (w_import W (c :: pkg) s)))
        as [e | []].
      * exists (manifest_names req). project_results.
        cbn [import_results]. rewrite import_results_prints.
        split; [reflexivity | discriminate].
      * destruct (IH (snd (w_import W (c :: pkg) s)))
          as [rest [Heq Hall]].
        exists rest. project_results.
        cbn [app import_results].
        rewrite import_results_app, import_results_prints.
        cbn [app List.map fst]. rewrite Heq.
        split; [reflexivity | exact Hall].
Qed.

Lemma check_lines_report (req : list str) (s : S) :
  holds (fun tr _ => stdout tr = flat_map import_line (import_results tr))
        (run W (for_each req check_line) s).
Proof.
  apply holds_check_lines.
  - reflexivity.
  - intros a b _ Ha Hb.
    now rewrite stdout_app, import_results_app, flat_map_app, Ha, Hb.
  - intros n r _. cbn [stdout import_results].
    rewrite stdout_prints, import_results_prints.
    cbn [flat_map import_line fst snd]. now rewrite app_nil_r.
  - intros n e He. unfold import_line. simpl. now rewrite He.
Qed.

Lemma check_lines_quiet (req : list str) (s : S) :
  holds (fun tr _ =>
           probes tr = [] /\ opened tr = [] /\
           launched tr = [] /\ walked tr = [])
        (run W (for_each req check_line) s).
Proof.
  apply holds_check_lines.
  - repeat split.
  - intros a b _ [Ha1 [Ha2 [Ha3 Ha4]]] [Hb1 [Hb2 [Hb3 Hb4]]].
    rewrite probes_app, opened_app, launched_app, walked_app.
    now rewrite Ha1, Ha2, Ha3, Ha4, Hb1, Hb2, Hb3, Hb4.
  - intros n r _. cbn [probes opened launched walked].
    now rewrite probes_prints, opened_prints, launched_prints,
      walked_prints.
  - intros n e _. repeat split.
Qed.

(** After the loop, the end of the read adds one observation that is
    neither a print, an import, a request, an open, a launch nor a
    walk. *)
Lemma manifest_loop_ended (req : list str) (s : S) :
  (exists tail,
      trace (and_then (run W (for_each req check_line) s)
               (fun _ => run W (read_end manifest)))
      = trace (run W (for_each req check_line) s) ++ tail /\
      stdout tail = [] /\ import_results tail = [] /\
      probes tail = [] /\ opened tail = [] /\
      launched tail = [] /\ walked tail = []) /\
  (outcome (and_then (run W (for_each req check_line) s)
              (fun _ => run W (read_end manifest))) = inr tt ->
   outcome (run W (for_each req check_line) s) = inr tt).
Proof.
  unfold and_then.
  destruct (run W (for_each req check_line) s) as [[tr [e | []]] s1];
    project_results.
  - split; [| discriminate]. exists []. rewrite app_nil_r.
    repeat split.
  - rewrite run_read_end. project_results.
    split; [| reflexivity].
    exists [OReadEnd manifest (fst (w_read_end W manifest s1))].
    repeat split.
Qed.

End DependencyExtras.

(** X4: the console of the dependency checker is its header followed by
    one [[MISSING] <name>] line for each import that raised an
    [ImportError], in the order of the imports, and nothing else.  The
    names imported are the non-empty names of the manifest lines, in
    order: all of them when the checker returns, the first ones up to
    the import that raised otherwise. *)
Theorem dependency_report {S : Type} (W : World S) (s : S) :
  stdout (trace (run W check_dependencies s))
  = (nl ++ py "Checking dependencies...")
      :: flat_map import_line
           (import_results (trace (run W check_dependencies s))) /\
  match fst (w_open W manifest (py "r") None s) with
  | inl _ => import_results (trace (run W check_dependencies s)) = []
  | inr req =>
      exists rest,
        manifest_names req
        = List.map fst
            (import_results (trace (run W check_dependencies s)))
          ++ rest /\
        (outcome (run W check_dependencies s) = inr tt -> rest = [])
  end.
Proof.
  rewrite run_check_dependencies.
  destruct (fst (w_open W manifest (py "r") None s)) as [e | req].
  - project_results. split; reflexivity.
  - pose proof (check_lines_report W req
                  (snd (w_open W manifest (py "r") None s))) as Hrep.
    destruct (check_lines_names W req
                (snd (w_open W manifest (py "r") None s)))
      as [rest [Heq Hall]].
    destruct (manifest_loop_ended W req
                (snd (w_open W manifest (py "r") None s)))
      as [[tail [Htr [Hout [Himp _]]]] Hret].
    unfold holds in Hrep. project_results.
    cbn [stdout import_results]. rewrite Htr.
    rewrite stdout_app, import_results_app, Hout, Himp, !app_nil_r.
    split; [now rewrite Hrep |].
    exists rest. split; [exact Heq |].
    intro H. apply Hall, Hret, H.
Qed.

(** X5: the package name taken from a manifest line contains no "=="
    and does not begin with a whitespace character. *)
Theorem pkg_of_clean (line : str) :
  contains (py "==") (pkg_of line) = false /\
  match pkg_of line with
  | [] => True
  | c :: _ => isspace c = false
  end.
Proof.
  destruct (pkg_of_spec line) as [tail [Hs [_ Hfirst]]]. split.
  - destruct (contains (py "==") (pkg_of line)) eqn:E; [| reflexivity].
    apply contains_iff in E. destruct E as [a [b E]].
    assert (Hline : strip line = a ++ py "==" ++ (b ++ tail))
      by (rewrite Hs, E, <- !app_assoc; reflexivity).
    apply Hfirst in Hline. rewrite E, !length_app in Hline.
    simpl in Hline. lia.
  - destruct (pkg_of line) as [| c pkg] eqn:E; [exact I |].
    destruct (strip_prefix line) as [t Ht].
    rewrite Hs in Ht. simpl in Ht. now apply lstrip_head in Ht.
Qed.

(** X6: whitespace around a manifest line does not change its package
    name: indentation, trailing blanks and the line end (LF or CR LF)
    are dropped before the name is cut. *)
Theorem pkg_of_ignores_margins (a line b : str) :
  forallb isspace a = true ->
  forallb isspace b = true ->
  pkg_of (a ++ line ++ b) = pkg_of line.
Proof.
  intros Ha Hb. unfold pkg_of. now rewrite strip_margins.
Qed.

(** X6 on an indented line ending in CR LF. *)
Lemma pkg_of_ignores_margins_witness :
  pkg_of (py "  " ++ py "requests==2.31.0" ++ [13%N; 10%N])
  = pkg_of (py "requests==2.31.0").
Proof.
  apply pkg_of_ignores_margins; reflexivity.
Defined.

(** X7: the dependency checker opens the manifest, at its fixed path,
    and nothing else; it sends no request, lists no directory and
    launches no process. *)
Theorem dependency_checker_footprint {S : Type} (W : World S) (s : S) :
  opened (trace (run W check_dependencies s)) = [py "requirements.txt"] /\
  probes (trace (run W check_dependencies s)) = [] /\
  launched (trace (run W check_dependencies s)) = [] /\
  walked (trace (run W check_dependencies s)) = [].
Proof.
  rewrite run_check_dependencies.
  destruct (fst (w_open W manifest (py "r") None s)) as [e | req].
  - project_results. repeat split.
  - pose proof (check_lines_quiet W req
                  (snd (w_open W manifest (py "r") None s))) as Hq.
    destruct (manifest_loop_ended W req
                (snd (w_open W manifest (py "r") None s)))
      as [[tail [Htr [_ [_ [T1 [T2 [T3 T4]]]]]]] _].
    unfold holds in Hq. destruct Hq as [H1 [H2 [H3 H4]]].
    project_results. cbn [opened probes launched walked]. rewrite Htr.
    rewrite opened_app, probes_app, launched_app, walked_app.
    rewrite H1, H2, H3, H4, T1, T2, T3, T4. repeat split.
Qed.

(** ** The whole run *)

Section RunExtras.

Context {S : Type} (W : World S).

Lemma checks_stdout_without_completion (s : S) :
  ~ In completion_banner (stdout (trace (run W checks s))).
Proof.
  intro H.
  assert (HP : Forall (fun t => startswith (nl ++ [9989%N]) t = false)
                 (stdout (trace (run W checks s))))
    by (apply checks_lines; reflexivity).
  rewrite Forall_forall in HP. apply HP in H. discriminate.
Qed.

Lemma checks_console_lines (s : S) :
  Forall console_line (stdout (trace (run W checks s))).
Proof.
  apply (checks_lines W console_line); unfold console_line; cbn [In].
  - left. left. reflexivity.
  - left. right. left. reflexivity.
  - left. right. right. left. reflexivity.
  - left. right. right. right. left. reflexivity.
  - intro msg. right. left. reflexivity.
  - intros url code. right. right. left. reflexivity.
  - intros url msg. right. right. right. left. reflexivity.
  - intro pkg. right. right. right. right. reflexivity.
Qed.

Lemma scan_tree_quiet (tree : list walk_entry) (s : S) :
  holds (fun tr _ => launched tr = [] /\ walked tr = [])
        (run W (for_each tree scan_dir) s).
Proof.
  apply holds_scan_tree; try (split; reflexivity).
  - intros a b _ [Ha1 Ha2] [Hb1 Hb2].
    now rewrite launched_app, walked_app, Ha1, Ha2, Hb1, Hb2.
  - intros url r. cbn [launched walked].
    now rewrite launched_prints, walked_prints.
Qed.

Lemma check_dependencies_quiet (s : S) :
  launched (trace (run W check_dependencies s)) = [] /\
  walked (trace (run W check_dependencies s)) = [].
Proof.
  rewrite run_check_dependencies.
  destruct (fst (w_open W manifest (py "r") None s)) as [e | req].
  - project_results. split; reflexivity.
  - pose proof (check_lines_quiet W req
                  (snd (w_open W manifest (py "r") None s))) as Hq.
    destruct (manifest_loop_ended W req
                (snd (w_open W manifest (py "r") None s)))
      as [[tail [Htr [_ [_ [_ [_ [T3 T4]]]]]]] _].
    unfold holds in Hq. destruct Hq as [_ [_ [H3 H4]]].
    project_results. cbn [launched walked]. rewrite Htr.
    now rewrite launched_app, walked_app, H3, H4, T3, T4.
Qed.

Lemma checks_launch_and_walk (s : S) :
  launched (trace (run W checks s)) = [[py "flake8"; py "."]] /\
  walked (trace (run W checks s)) = [py "."].
Proof.
  rewrite run_checks, run_check_imports. unfold and_then.
  project_results. rewrite run_check_urls.
  pose proof (scan_tree_quiet
                (fst (w_walk W (py ".")
                        (snd (w_subprocess W [py "flake8"; py "."] s))))
                (snd (w_walk W (py ".")
                        (snd (w_subprocess W [py "flake8"; py "."] s)))))
    as Hscan.
  unfold holds in Hscan. destruct Hscan as [Hs1 Hs2].
  assert (Hlint : forall r : exc + Z,
             launched
               match r with
               | inl e =>
                   [OPrint (py "Error running flake8:" ++ py " "
                              ++ exc_msg e)]
               | inr _ => []
               end = [] /\
             walked
               match r with
               | inl e =>
                   [OPrint (py "Error running flake8:" ++ py " "
                              ++ exc_msg e)]
               | inr _ => []
               end = [])
    by (intros [e | code]; split; reflexivity).
  destruct (Hlint (fst (w_subprocess W [py "flake8"; py "."] s)))
    as [Hl1 Hl2].
  project_results.
  destruct (snd (fst (run W
              (for_each
                 (fst (w_walk W (py ".")
                         (snd (w_subprocess W [py "flake8"; py "."] s))))
                 scan_dir)
              (snd (w_walk W (py ".")
                      (snd (w_subprocess W [py "flake8"; py "."] s)))))))
    as [e | []]; project_results; cbn [launched walked app].
  - rewrite !launched_app, !walked_app. cbn [launched walked].
    now rewrite Hl1, Hl2, Hs1, Hs2.
  - match goal with
    | |- context [run W check_dependencies ?s2] =>
        destruct (check_dependencies_quiet s2) as [Hd1 Hd2]
    end.
    project_results.
    rewrite !launched_app, !walked_app. cbn [launched walked].
    rewrite !launched_app, !walked_app. cbn [launched walked].
    now rewrite Hl1, Hl2, Hs1, Hs2, Hd1, Hd2.
Qed.

End RunExtras.

(** X8: every line the script prints is one of its two banners, one of
    its three headers, or a line that begins with
    [Error running flake8: ], [[BAD LINK] ], [[ERROR] ] or [[MISSING] ]. *)
Theorem console_lines {S : Type} (W : World S) (s : S) :
  Forall console_line (stdout (trace (run W main s))).
Proof.
  rewrite run_main_outcome.
  pose proof (checks_console_lines W s) as H.
  destruct (outcome (run W checks s)); [exact H |].
  destruct (fst (w_encode W completion_banner (final (run W checks s))));
    unfold trace at 1; cbn [fst]; rewrite stdout_app;
    apply Forall_app; (split; [exact H |]); cbn [stdout].
  - constructor.
  - constructor; [| constructor].
    left. cbn [In]. do 4 right. left. reflexivity.
Qed.

(** X9: the completion banner is on the console exactly when the entry
    point runs to its end, no exception reaching the top level; the
    banner is printed at most once, and nothing is printed after it. *)
Theorem banner_iff_completed {S : Type} (W : World S) (s : S) :
  (outcome (run W main s) = inr tt <->
   In completion_banner (stdout (trace (run W main s)))) /\
  (forall a b,
      stdout (trace (run W main s)) = a ++ completion_banner :: b ->
      b = [] /\ ~ In completion_banner a).
Proof.
  rewrite run_main_outcome.
  pose proof (checks_stdout_without_completion W s) as Hnone.
  destruct (run W checks s) as [[tr [e | []]] s1]; project_results.
  - split.
    + split; [discriminate | contradiction].
    + intros a b E. exfalso. apply Hnone. rewrite E.
      apply in_or_app. right. now left.
  - destruct (fst (w_encode W completion_banner s1)) as [e |];
      project_results; rewrite stdout_app; cbn [stdout].
    + rewrite app_nil_r. split.
      * split; [discriminate | contradiction].
      * intros a b E. exfalso. apply Hnone. rewrite E.
        apply in_or_app. right. now left.
    + split.
      * split; [| reflexivity]. intros _. apply in_or_app. right.
        now left.
      * intros a b E. destruct b as [| x b].
        -- apply app_inj_tail in E. destruct E as [<- _]. now split.
        -- exfalso. apply Hnone.
           destruct (exists_last (l := x :: b)) as [b' [y Hb]];
             [discriminate |].
           rewrite Hb in E.
           change (a ++ completion_banner :: b' ++ [y])
             with (a ++ (completion_banner :: b') ++ [y]) in E.
           rewrite app_assoc in E. apply app_inj_tail in E.
           destruct E as [-> _]. apply in_or_app. right. now left.
Qed.

(** X10: in every run the script launches exactly one process, flake8
    on ".", and walks exactly one directory, ".": whatever flake8
    answers, and whether or not the run ends with an exception. *)
Theorem one_launch_one_walk {S : Type} (W : World S) (s : S) :
  launched (trace (run W main s)) = [[py "flake8"; py "."]] /\
  walked (trace (run W main s)) = [py "."].
Proof.
  rewrite run_main_outcome.
  destruct (checks_launch_and_walk W s) as [Hl Hw].
  destruct (outcome (run W checks s)); [now split |].
  destruct (fst (w_encode W completion_banner (final (run W checks s))));
    unfold trace at 1 3; cbn [fst];
    rewrite launched_app, walked_app, Hl, Hw; split; reflexivity.
Qed.

(** ** The tokens of a line *)

Lemma split_ws_concat (s cur : str) :
  List.concat (split_ws cur s)
  = rev cur ++ filter (fun c => negb (isspace c)) s.
Proof.
  revert cur. induction s as [| x s IH]; intro cur; simpl.
  - rewrite app_nil_r. destruct cur; [reflexivity |].
    simpl. now rewrite app_nil_r.
  - destruct (isspace x); simpl.
    + destruct cur; simpl; now rewrite IH.
    + rewrite IH. simpl. now rewrite <- app_assoc.
Qed.

(** X11: cutting a line into tokens loses its whitespace characters and
    nothing else: the tokens of [line.split()], put end to end, are the
    line without its whitespace. *)
Theorem split_keeps_text (line : str) :
  List.concat (split line) = filter (fun c => negb (isspace c)) line.
Proof. unfold split. now rewrite split_ws_concat. Qed.
